(** * todoist34: the task-manager API, embedded and verified

    A shallow embedding of the FastAPI back end
    (backend/models, backend/schemas, backend/services/security.py,
    backend/routes/auth.py, backend/routes/tasks.py).

    - The relational store is a pair of row lists (tables [users] and
      [tasks]); a request handler is a function from the committed store to
      an outcome and the store committed when the request ends.
    - Exceptions are values: a handler either returns or raises, and an
      exception nobody catches is what the client gets (a 500 for anything
      that is not an [HTTPException]).
    - The clock ([datetime.utcnow]) and the salt drawn by the password
      hasher are inputs of the handler that reads them.
    - A string is the UTF-8 text of a Python [str]; a [str] with no UTF-8
      form (a lone surrogate) has no counterpart here.
    - Keys are integers, handed out by the table without bound.  The
      handlers of routes/tasks.py are first given as the ORM runs them,
      for a path id the driver can bind; [get_task_by_id_sqlite] and its
      two siblings add the bound sqlite3 puts on a bound integer.
    - The third-party libraries (passlib's [CryptContext], python-jose's
      [jwt]) are interfaces; what a proof needs of them is a hypothesis of
      the section it lives in, and a small executable instance of each
      interface is given. *)

From Stdlib Require Import ZArith List String Bool Lia.
Import ListNotations.
Local Open Scope string_scope.
Local Open Scope list_scope.
Local Open Scope Z_scope.

Set Implicit Arguments.

(* ===================================================================== *)
(** ** Exceptions and outcomes *)
(* ===================================================================== *)

Definition headers := list (string * string).

(** The exceptions that can cross the code under study. *)
Inductive exception : Type :=
| HTTPException (status_code : Z) (detail : string) (hdrs : headers)
| IntegrityError        (* sqlalchemy.exc: a constraint refused the write *)
| InvalidRequestError   (* sqlalchemy.exc: refresh of a row that is gone  *)
| UnknownHashError      (* passlib.exc: no scheme identifies the digest   *)
| PasswordValueError    (* passlib.exc: the secret cannot be hashed       *)
| JWSError              (* jose.exceptions: signing failed                *)
| ValidationError       (* pydantic: a model refused its input            *)
| OverflowError.        (* sqlite3: an int outside the 64-bit INTEGER     *)

Inductive outcome (A : Type) : Type :=
| Ok (a : A)
| Raise (e : exception).
Arguments Ok {A} a.
Arguments Raise {A} e.

Definition HTTP_400_BAD_REQUEST : Z := 400.
Definition HTTP_401_UNAUTHORIZED : Z := 401.
Definition HTTP_404_NOT_FOUND : Z := 404.

(* ===================================================================== *)
(** ** backend/models: the rows *)
(* ===================================================================== *)

(** Timestamps are [datetime] values, counted in microseconds. *)
Definition datetime := Z.

Module User.
(** models/user.py, class User. *)
Record t : Type := Build {
  id : Z;
  username : string;
  email : string;
  hashed_password : string;
  created_at : datetime
}.
End User.

Module Task.
(** models/task.py, class Task.  [title] is NOT NULL in the table but the
    mapped attribute can hold [None] until a flush refuses it;
    [description] and [is_completed] are nullable columns. *)
Record t : Type := Build {
  id : Z;
  title : option string;
  description : option string;
  is_completed : option bool;
  created_at : datetime;
  updated_at : datetime;
  user_id : Z
}.
End Task.

Record Database : Type := Build_Database {
  users : list User.t;
  tasks : list Task.t
}.

Definition empty_database : Database := Build_Database [] [].

(* ===================================================================== *)
(** ** backend/schemas: request and response models *)
(* ===================================================================== *)

Module UserCreate.
Record t : Type := Build { username : string; email : string; password : string }.
End UserCreate.

Module UserLogin.
Record t : Type := Build { username : string; password : string }.
End UserLogin.

Module UserResponse.
(** schemas/user.py: UserBase's fields, then [id] and [created_at]. *)
Record t : Type := Build {
  username : string;
  email : string;
  id : Z;
  created_at : datetime
}.
End UserResponse.

Module Token.
Record t (token : Type) : Type := Build { access_token : token; token_type : string }.
End Token.

Module TaskCreate.
Record t : Type := Build { title : string; description : option string }.
End TaskCreate.

Module TaskUpdate.
(** Every field is optional.  The outer [option] is pydantic's
    fields-set bit ([None]: the body did not mention the field), the
    inner one the value, which may be an explicit null. *)
Record t : Type := Build {
  title : option (option string);
  description : option (option string);
  is_completed : option (option bool)
}.
End TaskUpdate.

(** One item of [task_update.model_dump(exclude_unset=True)]. *)
Inductive task_field : Type :=
| F_title (v : option string)
| F_description (v : option string)
| F_is_completed (v : option bool).

Definition dump_field {A} (mk : A -> task_field) (f : option A) : list task_field :=
  match f with
  | Some v => [mk v]
  | None => []
  end.

(** The dict keeps the declaration order of the fields that were set. *)
Definition model_dump_exclude_unset (u : TaskUpdate.t) : list task_field :=
  dump_field F_title (TaskUpdate.title u)
  ++ dump_field F_description (TaskUpdate.description u)
  ++ dump_field F_is_completed (TaskUpdate.is_completed u).

(** [setattr(task, field, value)]. *)
Definition setattr (t : Task.t) (f : task_field) : Task.t :=
  match f with
  | F_title v =>
      Task.Build (Task.id t) v (Task.description t) (Task.is_completed t)
                 (Task.created_at t) (Task.updated_at t) (Task.user_id t)
  | F_description v =>
      Task.Build (Task.id t) (Task.title t) v (Task.is_completed t)
                 (Task.created_at t) (Task.updated_at t) (Task.user_id t)
  | F_is_completed v =>
      Task.Build (Task.id t) (Task.title t) (Task.description t) v
                 (Task.created_at t) (Task.updated_at t) (Task.user_id t)
  end.

(** JSON values of a response body. *)
Inductive json : Type :=
| JStr (s : string)
| JInt (z : Z)
| JDatetime (d : datetime).

(** [UserResponse.model_validate(user)] with [from_attributes = True]: the
    response model reads the attributes it declares and no other. *)
Definition UserResponse_from_attributes (u : User.t) : UserResponse.t :=
  UserResponse.Build (User.username u) (User.email u) (User.id u) (User.created_at u).

Definition UserResponse_model_dump (r : UserResponse.t) : list (string * json) :=
  [ ("username", JStr (UserResponse.username r));
    ("email", JStr (UserResponse.email r));
    ("id", JInt (UserResponse.id r));
    ("created_at", JDatetime (UserResponse.created_at r)) ].

(** What FastAPI sends for a handler declared with
    [response_model=UserResponse]. *)
Definition serialize_user (u : User.t) : list (string * json) :=
  UserResponse_model_dump (UserResponse_from_attributes u).

(* ===================================================================== *)
(** ** The session: queries and commits *)
(* ===================================================================== *)

(** A handler run: outcome and committed store. *)
Definition Session (A : Type) : Type := Database -> outcome A * Database.

Definition ret {A} (a : A) : Session A := fun db => (Ok a, db).

Definition raise {A} (e : exception) : Session A := fun db => (Raise e, db).

Definition bind {A B} (c : Session A) (k : A -> Session B) : Session B :=
  fun db =>
    match c db with
    | (Ok a, db') => k a db'
    | (Raise e, db') => (Raise e, db')
    end.

Notation "x <- c ;; k" := (bind c (fun x => k))
  (at level 61, c at next level, right associativity).
Notation "c ;;; k" := (bind c (fun _ => k))
  (at level 61, right associativity).

(** [database.query(User).filter(p).first()]. *)
Definition query_user_first (p : User.t -> bool) : Session (option User.t) :=
  fun db => (Ok (find p (users db)), db).

(** [database.query(Task).filter(p).first()]. *)
Definition query_task_first (p : Task.t -> bool) : Session (option Task.t) :=
  fun db => (Ok (find p (tasks db)), db).

(** [database.query(Task).filter(p).all()]. *)
Definition query_task_all (p : Task.t -> bool) : Session (list Task.t) :=
  fun db => (Ok (filter p (tasks db)), db).

(** The integer primary key the table gives a new row: one more than the
    largest in use. *)
Definition next_id (ids : list Z) : Z := 1 + fold_right Z.max 0 ids.

(** Unique indexes of [users]. *)
Definition username_taken (name : string) (db : Database) : bool :=
  existsb (fun u => String.eqb (User.username u) name) (users db).

Definition email_taken (mail : string) (db : Database) : bool :=
  existsb (fun u => String.eqb (User.email u) mail) (users db).

(** SELECT ... WHERE id = pk, as [database.refresh(obj)] issues it. *)
Definition refresh_user (pk : Z) : Session User.t :=
  fun db =>
    match find (fun u => User.id u =? pk) (users db) with
    | Some u => (Ok u, db)
    | None => (Raise InvalidRequestError, db)
    end.

Definition refresh_task (pk : Z) : Session Task.t :=
  fun db =>
    match find (fun t => Task.id t =? pk) (tasks db) with
    | Some t => (Ok t, db)
    | None => (Raise InvalidRequestError, db)
    end.

(** [database.add(new_user); database.commit()]: the INSERT fills [id]
    and the [created_at] default; the unique indexes on [username] and
    [email] may refuse it.  Returns the new primary key. *)
Definition flush_insert_user (name mail hashed : string) (now : datetime) : Session Z :=
  fun db =>
    if username_taken name db || email_taken mail db then (Raise IntegrityError, db)
    else
      let pk := next_id (map User.id (users db)) in
      (Ok pk, Build_Database (users db ++ [User.Build pk name mail hashed now]) (tasks db)).

(** [database.add(new_task); database.commit()]: the INSERT fills [id] and
    the defaults of [is_completed], [created_at] and [updated_at].  The
    two timestamp defaults read the clock one after the other; both get
    the reading [now] here, and nothing is stated below about the gap
    between them. *)
Definition flush_insert_task (title : string) (description : option string)
    (owner : Z) (now : datetime) : Session Z :=
  fun db =>
    let pk := next_id (map Task.id (tasks db)) in
    (Ok pk, Build_Database (users db)
              (tasks db ++ [Task.Build pk (Some title) description (Some false) now now owner])).

Definition option_eqb {A} (eqb : A -> A -> bool) (x y : option A) : bool :=
  match x, y with
  | Some a, Some b => eqb a b
  | None, None => true
  | _, _ => false
  end.

Definition title_changed (committed current : Task.t) : bool :=
  negb (option_eqb String.eqb (Task.title current) (Task.title committed)).

Definition description_changed (committed current : Task.t) : bool :=
  negb (option_eqb String.eqb (Task.description current) (Task.description committed)).

Definition is_completed_changed (committed current : Task.t) : bool :=
  negb (option_eqb Bool.eqb (Task.is_completed current) (Task.is_completed committed)).

(** Does the object differ from the row it was loaded from, in a column
    a request can write?  Only such net changes reach an UPDATE. *)
Definition net_change (committed current : Task.t) : bool :=
  title_changed committed current
  || description_changed committed current
  || is_completed_changed committed current.

Definition set_updated_at (t : Task.t) (now : datetime) : Task.t :=
  Task.Build (Task.id t) (Task.title t) (Task.description t) (Task.is_completed t)
             (Task.created_at t) now (Task.user_id t).

(** UPDATE tasks SET ... WHERE id = pk. *)
Definition update_row (row : Task.t) (l : list Task.t) : list Task.t :=
  map (fun r => if Task.id r =? Task.id row then row else r) l.

(** [database.commit()] with the loaded row [committed] now holding the
    attributes of [current].  The flush compares the written attributes
    with the loaded values: without a net change no UPDATE is emitted, so
    [onupdate] does not fire; with one, the UPDATE carries the changed
    columns and [updated_at = utcnow()], and a null title is refused. *)
Definition flush_update (committed current : Task.t) (now : datetime) : Session unit :=
  fun db =>
    if negb (net_change committed current) then (Ok tt, db)
    else if title_changed committed current
            && match Task.title current with None => true | Some _ => false end
    then (Raise IntegrityError, db)
    else (Ok tt, Build_Database (users db)
                   (update_row (set_updated_at current now) (tasks db))).

(** [database.delete(task); database.commit()]: DELETE ... WHERE id = pk. *)
Definition commit_delete (task : Task.t) : Session unit :=
  fun db =>
    (Ok tt, Build_Database (users db)
              (filter (fun r => negb (Task.id r =? Task.id task)) (tasks db))).

(** Modelled from the spec: the repository has no operation that deletes a
    user; models/user.py only declares the relationship
    [tasks = relationship("Task", ..., cascade="all, delete-orphan")].
    Following the spec ("deleting a User cascades deletion of all owned
    Tasks"), deleting [u] removes the tasks whose [user_id] is [u]'s id and
    then the user row. *)
Definition delete_user (u : User.t) : Session unit :=
  fun db =>
    (Ok tt, Build_Database
              (filter (fun r => negb (User.id r =? User.id u)) (users db))
              (filter (fun t => negb (Task.user_id t =? User.id u)) (tasks db))).

(* ===================================================================== *)
(** ** Third-party interfaces *)
(* ===================================================================== *)

(** passlib's [CryptContext(schemes=["bcrypt"], deprecated="auto")].
    [hash] draws a salt, which is an input here; all three may be handed
    any string, and [hash] and [verify] may raise. *)
Module CryptContext.
Record t : Type := Build {
  identify : string -> bool;
  hash : string -> string -> outcome string;
  verify : string -> string -> outcome bool
}.
End CryptContext.

(** What [except JWTError] catches: [JWTError] itself (bad signature,
    malformed token) and its subclasses. *)
Inductive JWTError : Type :=
| InvalidTokenError
| ExpiredSignatureError
| JWTClaimsError.

(** Values of a claims dict. *)
Inductive claim : Type :=
| CStr (s : string)
| CInt (z : Z)
| CDatetime (d : datetime)
| CNull.

Definition claims := list (string * claim).

Fixpoint dict_get (d : claims) (k : string) : option claim :=
  match d with
  | [] => None
  | (k', v) :: rest => if String.eqb k' k then Some v else dict_get rest k
  end.

(** [d.update({k: v})]: a key already present keeps its place. *)
Fixpoint dict_update (d : claims) (k : string) (v : claim) : claims :=
  match d with
  | [] => [(k, v)]
  | (k', v') :: rest =>
      if String.eqb k' k then (k, v) :: rest else (k', v') :: dict_update rest k v
  end.

(** python-jose's [jwt.encode(claims, key, algorithm)] and
    [jwt.decode(token, key, algorithms)]; [decode] reads the clock.  The
    code never looks inside a token, so its type is left open. *)
Module Jose.
Record t (token : Type) : Type := Build {
  encode : claims -> string -> string -> outcome token;
  decode : token -> string -> list string -> datetime -> JWTError + claims
}.
End Jose.

(** The process environment, read once at import. *)
Record Settings : Type := Build_Settings {
  SECRET_KEY : string;
  ALGORITHM : string;
  ACCESS_TOKEN_EXPIRE_MINUTES : Z
}.

(** [timedelta(minutes=m)], in microseconds. *)
Definition timedelta_minutes (m : Z) : Z := m * 60000000.

(** [calendar.timegm(d.utctimetuple())]: whole seconds. *)
Definition timegm (d : datetime) : Z := d / 1000000.

Definition lift {A} (o : outcome A) : Session A := fun db => (o, db).

(* ===================================================================== *)
(** ** backend/services/security.py, backend/routes *)
(* ===================================================================== *)

Section Backend.

Variable token : Type.
Variable jwt : Jose.t token.
Variable password_context : CryptContext.t.
Variable settings : Settings.

(** *** services/security.py *)

Definition hash_password (password salt : string) : outcome string :=
  CryptContext.hash password_context password salt.

Definition verify_password (plain_password hashed_password : string) : outcome bool :=
  CryptContext.verify password_context plain_password hashed_password.

(** [expires_delta] is an [Optional[timedelta]]; [if expires_delta:] is
    false for [None] and for the zero delta. *)
Definition create_access_token (data : claims) (expires_delta : option Z)
    (now : datetime) : outcome token :=
  let to_encode := data in
  let expire :=
    match expires_delta with
    | Some d =>
        if d =? 0 then now + timedelta_minutes (ACCESS_TOKEN_EXPIRE_MINUTES settings)
        else now + d
    | None => now + timedelta_minutes (ACCESS_TOKEN_EXPIRE_MINUTES settings)
    end in
  Jose.encode jwt (dict_update to_encode "exp" (CDatetime expire))
              (SECRET_KEY settings) (ALGORITHM settings).

Definition credentials_exception : exception :=
  HTTPException HTTP_401_UNAUTHORIZED "Could not validate credentials"
                [("WWW-Authenticate", "Bearer")].

(** [payload.get("sub")] is [None] for a missing key and for a null;
    [TokenData(username=...)] accepts a string only, and its
    [ValidationError] is not a [JWTError]. *)
Definition get_current_user (tok : token) (now : datetime) : Session User.t :=
  match Jose.decode jwt tok (SECRET_KEY settings) [ALGORITHM settings] now with
  | inl _ => raise credentials_exception
  | inr payload =>
      match dict_get payload "sub" with
      | None | Some CNull => raise credentials_exception
      | Some (CStr username) =>
          user <- query_user_first (fun u => String.eqb (User.username u) username) ;;
          match user with
          | None => raise credentials_exception
          | Some u => ret u
          end
      | Some (CInt _) | Some (CDatetime _) => raise ValidationError
      end
  end.

(** *** routes/auth.py *)

Definition register_user (user : UserCreate.t) (salt : string) (now : datetime)
    : Session User.t :=
  existing_user_by_username <-
    query_user_first (fun u => String.eqb (User.username u) (UserCreate.username user)) ;;
  match existing_user_by_username with
  | Some _ => raise (HTTPException HTTP_400_BAD_REQUEST "Username already registered" [])
  | None =>
      existing_user_by_email <-
        query_user_first (fun u => String.eqb (User.email u) (UserCreate.email user)) ;;
      match existing_user_by_email with
      | Some _ => raise (HTTPException HTTP_400_BAD_REQUEST "Email already registered" [])
      | None =>
          hashed <- lift (hash_password (UserCreate.password user) salt) ;;
          pk <- flush_insert_user (UserCreate.username user) (UserCreate.email user)
                                  hashed now ;;
          refresh_user pk
      end
  end.

Definition login_exception : exception :=
  HTTPException HTTP_401_UNAUTHORIZED "Incorrect username or password"
                [("WWW-Authenticate", "Bearer")].

Definition login_user (user : UserLogin.t) (now : datetime) : Session (Token.t token) :=
  db_user <-
    query_user_first (fun u => String.eqb (User.username u) (UserLogin.username user)) ;;
  match db_user with
  | None => raise login_exception
  | Some u =>
      verified <- lift (verify_password (UserLogin.password user) (User.hashed_password u)) ;;
      if negb verified then raise login_exception
      else
        let access_token_expires :=
          timedelta_minutes (ACCESS_TOKEN_EXPIRE_MINUTES settings) in
        access_token <-
          lift (create_access_token [("sub", CStr (User.username u))]
                                    (Some access_token_expires) now) ;;
        ret (Token.Build access_token "bearer")
  end.

Definition get_current_user_info (current_user : User.t) : Session User.t :=
  ret current_user.

(** *** routes/tasks.py

    The handlers as the ORM runs them.  What sqlite3 adds for a path id
    it cannot bind is in [get_task_by_id_sqlite], [update_task_sqlite]
    and [delete_task_sqlite], after this section. *)

Definition task_not_found : exception :=
  HTTPException HTTP_404_NOT_FOUND "Task not found" [].

(** [.filter(Task.id == task_id, Task.user_id == current_user.id)]. *)
Definition owned_task (task_id : Z) (current_user : User.t) (t : Task.t) : bool :=
  (Task.id t =? task_id) && (Task.user_id t =? User.id current_user).

Definition create_task (task : TaskCreate.t) (current_user : User.t) (now : datetime)
    : Session Task.t :=
  pk <- flush_insert_task (TaskCreate.title task) (TaskCreate.description task)
                          (User.id current_user) now ;;
  refresh_task pk.

Definition get_all_tasks (current_user : User.t) : Session (list Task.t) :=
  query_task_all (fun t => Task.user_id t =? User.id current_user).

Definition get_task_by_id (task_id : Z) (current_user : User.t) : Session Task.t :=
  task <- query_task_first (owned_task task_id current_user) ;;
  match task with
  | None => raise task_not_found
  | Some t => ret t
  end.

Definition update_task (task_id : Z) (task_update : TaskUpdate.t)
    (current_user : User.t) (now : datetime) : Session Task.t :=
  task <- query_task_first (owned_task task_id current_user) ;;
  match task with
  | None => raise task_not_found
  | Some t =>
      let update_data := model_dump_exclude_unset task_update in
      let t' := fold_left setattr update_data t in
      flush_update t t' now ;;;
      refresh_task (Task.id t)
  end.

Definition delete_task (task_id : Z) (current_user : User.t) : Session unit :=
  task <- query_task_first (owned_task task_id current_user) ;;
  match task with
  | None => raise task_not_found
  | Some t => commit_delete t
  end.

(** *** The endpoints: [Depends(get_current_user)] runs first

    A user endpoint answers with the body its response model makes of the
    handler's result; a task endpoint is taken up to the handler's result. *)

Definition api_me (tok : token) (now : datetime) : Session (list (string * json)) :=
  current_user <- get_current_user tok now ;;
  u <- get_current_user_info current_user ;;
  ret (serialize_user u).

Definition api_register (user : UserCreate.t) (salt : string) (now : datetime)
    : Session (list (string * json)) :=
  u <- register_user user salt now ;;
  ret (serialize_user u).

Definition api_create_task (tok : token) (task : TaskCreate.t) (now : datetime)
    : Session Task.t :=
  current_user <- get_current_user tok now ;;
  create_task task current_user now.

Definition api_get_all_tasks (tok : token) (now : datetime) : Session (list Task.t) :=
  current_user <- get_current_user tok now ;;
  get_all_tasks current_user.

Definition api_get_task_by_id (tok : token) (task_id : Z) (now : datetime)
    : Session Task.t :=
  current_user <- get_current_user tok now ;;
  get_task_by_id task_id current_user.

Definition api_update_task (tok : token) (task_id : Z) (task_update : TaskUpdate.t)
    (now : datetime) : Session Task.t :=
  current_user <- get_current_user tok now ;;
  update_task task_id task_update current_user now.

Definition api_delete_task (tok : token) (task_id : Z) (now : datetime) : Session unit :=
  current_user <- get_current_user tok now ;;
  delete_task task_id current_user.

End Backend.

(* ===================================================================== *)
(** ** The bound of the driver on a path id *)
(* ===================================================================== *)

(** sqlite3 binds a Python [int] as a signed 64-bit INTEGER and raises
    [OverflowError] ("Python int too large to convert to SQLite INTEGER")
    for any other. *)
Definition sqlite_integer (z : Z) : bool :=
  (-9223372036854775808 <=? z) && (z <=? 9223372036854775807).

(** The three handlers that put the path parameter [task_id] in a query:
    the first statement they run binds it. *)
Definition get_task_by_id_sqlite (task_id : Z) (current_user : User.t)
    : Session Task.t :=
  if sqlite_integer task_id then get_task_by_id task_id current_user
  else raise OverflowError.

Definition update_task_sqlite (task_id : Z) (task_update : TaskUpdate.t)
    (current_user : User.t) (now : datetime) : Session Task.t :=
  if sqlite_integer task_id then update_task task_id task_update current_user now
  else raise OverflowError.

Definition delete_task_sqlite (task_id : Z) (current_user : User.t) : Session unit :=
  if sqlite_integer task_id then delete_task task_id current_user
  else raise OverflowError.

(* ===================================================================== *)
(** ** The API as a transition system *)
(* ===================================================================== *)

(** The routes of the two routers, with what each request carries. *)
Inductive request (token : Type) : Type :=
| POST_register (user : UserCreate.t) (salt : string) (now : datetime)
| POST_login (user : UserLogin.t) (now : datetime)
| GET_me (tok : token) (now : datetime)
| POST_tasks (tok : token) (task : TaskCreate.t) (now : datetime)
| GET_tasks (tok : token) (now : datetime)
| GET_task (tok : token) (task_id : Z) (now : datetime)
| PUT_task (tok : token) (task_id : Z) (task_update : TaskUpdate.t) (now : datetime)
| DELETE_task (tok : token) (task_id : Z) (now : datetime).
Arguments POST_register {token} user salt now.
Arguments POST_login {token} user now.
Arguments GET_me {token} tok now.
Arguments POST_tasks {token} tok task now.
Arguments GET_tasks {token} tok now.
Arguments GET_task {token} tok task_id now.
Arguments PUT_task {token} tok task_id task_update now.
Arguments DELETE_task {token} tok task_id now.

(** The store a request leaves behind. *)
Definition serve {token : Type} (jwt : Jose.t token) (ctx : CryptContext.t)
    (settings : Settings) (db : Database) (r : request token) : Database :=
  match r with
  | POST_register user salt now => snd (api_register ctx user salt now db)
  | POST_login user now => snd (login_user jwt ctx settings user now db)
  | GET_me tok now => snd (api_me jwt settings tok now db)
  | POST_tasks tok task now => snd (api_create_task jwt settings tok task now db)
  | GET_tasks tok now => snd (api_get_all_tasks jwt settings tok now db)
  | GET_task tok task_id now => snd (api_get_task_by_id jwt settings tok task_id now db)
  | PUT_task tok task_id task_update now =>
      snd (api_update_task jwt settings tok task_id task_update now db)
  | DELETE_task tok task_id now => snd (api_delete_task jwt settings tok task_id now db)
  end.

(** The store after a history of requests, from the empty tables that
    [Base.metadata.create_all] makes. *)
Definition run {token : Type} (jwt : Jose.t token) (ctx : CryptContext.t)
    (settings : Settings) (history : list (request token)) : Database :=
  fold_left (serve jwt ctx settings) history empty_database.

(* ===================================================================== *)
(** ** Constraints of the schema and ownership *)
(* ===================================================================== *)

(** Primary keys, the unique indexes of [users] and the NOT NULL title. *)
Record wf_db (db : Database) : Prop := Build_wf_db {
  wf_task_pk : NoDup (map Task.id (tasks db));
  wf_user_pk : NoDup (map User.id (users db));
  wf_username_unique : NoDup (map User.username (users db));
  wf_email_unique : NoDup (map User.email (users db));
  wf_title_not_null : Forall (fun t => Task.title t <> None) (tasks db)
}.

(** Some task with this id belongs to [u]. *)
Definition has_owned_task (db : Database) (u : User.t) (task_id : Z) : Prop :=
  exists t, In t (tasks db) /\ Task.id t = task_id /\ Task.user_id t = User.id u.

(** The rows of everybody but [u], in table order. *)
Definition tasks_of_others (u : User.t) (db : Database) : list Task.t :=
  filter (fun t => negb (Task.user_id t =? User.id u)) (tasks db).

Definition tasks_of (u : User.t) (db : Database) : list Task.t :=
  filter (fun t => Task.user_id t =? User.id u) (tasks db).

(** The row a successful registration inserts. *)
Definition registered_row (user : UserCreate.t) (hashed : string) (now : datetime)
    (db : Database) : User.t :=
  User.Build (next_id (map User.id (users db)))
             (UserCreate.username user) (UserCreate.email user) hashed now.

(** The patch [{"is_completed": true}]. *)
Definition complete_only : TaskUpdate.t :=
  TaskUpdate.Build None None (Some (Some true)).

(* ===================================================================== *)
(** ** Executable instances of the interfaces *)
(* ===================================================================== *)

(** A hasher with passlib's control flow and a transparent stand-in for
    the Blowfish digest (the salt is ignored): [verify] first asks which
    scheme the digest belongs to and raises [UnknownHashError] ("hash
    could not be identified") when none does. *)
Definition bcrypt_identify (h : string) : bool := String.prefix "$2b$" h.

Definition bcrypt_hash (secret salt : string) : outcome string :=
  Ok ("$2b$" ++ secret)%string.

Definition bcrypt_verify (secret h : string) : outcome bool :=
  if bcrypt_identify h then Ok (String.eqb h ("$2b$" ++ secret)%string)
  else Raise UnknownHashError.

Definition bcrypt_context : CryptContext.t :=
  CryptContext.Build bcrypt_identify bcrypt_hash bcrypt_verify.

(** The same hasher with passlib's refusal of a secret that holds a NUL
    ("bcrypt does not allow NULL bytes in password"): once the digest is
    identified, [hash] and [verify] raise for such a secret. *)
Fixpoint contains_nul (s : string) : bool :=
  match s with
  | EmptyString => false
  | String c rest => Ascii.eqb c Ascii.zero || contains_nul rest
  end.

Definition nul_checking_hash (secret salt : string) : outcome string :=
  if contains_nul secret then Raise PasswordValueError else bcrypt_hash secret salt.

Definition nul_checking_verify (secret h : string) : outcome bool :=
  if bcrypt_identify h then
    if contains_nul secret then Raise PasswordValueError else bcrypt_verify secret h
  else Raise UnknownHashError.

Definition nul_checking_context : CryptContext.t :=
  CryptContext.Build bcrypt_identify nul_checking_hash nul_checking_verify.

(** A signer whose tokens are the claims in the clear, next to the key and
    the algorithm they were made with.  [encode] turns datetimes into
    whole seconds, [decode] checks key, algorithm and [exp]. *)
Definition clear_token : Type := (claims * string * string)%type.

Definition json_claim (c : string * claim) : string * claim :=
  match c with
  | (k, CDatetime d) => (k, CInt (timegm d))
  | other => other
  end.

Definition clear_encode (c : claims) (key alg : string) : outcome clear_token :=
  Ok (map json_claim c, key, alg).

Definition clear_decode (t : clear_token) (key : string) (algs : list string)
    (now : datetime) : JWTError + claims :=
  match t with
  | (c, key', alg') =>
      if String.eqb key' key && existsb (String.eqb alg') algs then
        match dict_get c "exp" with
        | Some (CInt e) => if e <? timegm now then inl ExpiredSignatureError else inr c
        | _ => inr c
        end
      else inl InvalidTokenError
  end.

Definition clear_jwt : Jose.t clear_token := Jose.Build clear_encode clear_decode.

Definition dev_settings : Settings := Build_Settings "your-secret-key" "HS256" 30.

(** Two users and their tasks, for concrete runs. *)
Definition alice : User.t := User.Build 1 "alice" "a@x.com" "$2b$secret1" 1000.
Definition bob : User.t := User.Build 2 "bob" "b@x.com" "$2b$hunter22" 2000.

Definition buy_milk : Task.t :=
  Task.Build 1 (Some "Buy milk") None (Some false) 3000 3000 1.
Definition walk_dog : Task.t :=
  Task.Build 2 (Some "Walk dog") (Some "twice") (Some false) 4000 4000 2.

Definition sample_db : Database := Build_Database [alice; bob] [buy_milk; walk_dog].

(** A user with a well-formed bcrypt digest, one whose stored value is
    not a digest at all, and the password "secret", NUL, "1". *)
Definition dave : User.t :=
  User.Build 1 "dave" "d@x.com"
             "$2b$12$EXRkfkdmXn2gzds2SSitu.MW9.gAVqa9eLS1//RYtYCmB1eLHg.9q" 1000.
Definition erin : User.t := User.Build 2 "erin" "e@x.com" "not-a-bcrypt-digest" 2000.

Definition login_db : Database := Build_Database [dave; erin] [].

Definition nul_password : string := "secret" ++ String Ascii.zero "1".

(** A store whose only task is already completed. *)
Definition pay_rent : Task.t :=
  Task.Build 1 (Some "Pay rent") None (Some true) 3000 3500 1.

Definition done_db : Database := Build_Database [alice] [pay_rent].

(* ===================================================================== *)
(** ** The task routes as the client sees them *)
(* ===================================================================== *)

(** A byte that continues a UTF-8 sequence: 10xxxxxx. *)
Definition continuation_byte (c : Ascii.ascii) : bool :=
  ((128 <=? Ascii.N_of_ascii c) && (Ascii.N_of_ascii c <? 192))%N.

(** The code points of a UTF-8 text: the bytes that start a sequence. *)
Fixpoint code_points (s : string) : nat :=
  match s with
  | EmptyString => O
  | String c rest =>
      if continuation_byte c then code_points rest else S (code_points rest)
  end.

(** [len(s)] of a [str]: its number of code points. *)
Definition len (s : string) : Z := Z.of_nat (code_points s).

(** schemas/task.py, [TaskBase.title]: [Field(..., min_length=1, max_length=200)]. *)
Definition title_ok (s : string) : bool := (1 <=? len s) && (len s <=? 200).



Module TaskResponse.
(** schemas/task.py, class TaskResponse: TaskBase's fields, then the rest. *)
Record t : Type := Build {
  title : string;
  description : option string;
  id : Z;
  is_completed : bool;
  created_at : datetime;
  updated_at : datetime;
  user_id : Z
}.
End TaskResponse.

(** [TaskResponse.model_validate(task)] with [from_attributes = True]:
    [title] must be a string within the length bounds and [is_completed] a
    boolean; a null in either is refused.  [None] stands for the refusal. *)
Definition TaskResponse_from_attributes (t : Task.t) : option TaskResponse.t :=
  match Task.title t, Task.is_completed t with
  | Some s, Some b =>
      if title_ok s then
        Some (TaskResponse.Build s (Task.description t) (Task.id t) b
                (Task.created_at t) (Task.updated_at t) (Task.user_id t))
      else None
  | _, _ => None
  end.

(** [List[TaskResponse]]: one refused item refuses the list. *)
Fixpoint TaskResponse_list (l : list Task.t) : option (list TaskResponse.t) :=
  match l with
  | [] => Some []
  | t :: rest =>
      match TaskResponse_from_attributes t, TaskResponse_list rest with
      | Some r, Some rs => Some (r :: rs)
      | _, _ => None
      end
  end.

(** What goes on the wire: the declared status with the validated body,
    the status and detail of an [HTTPException], or a 500 for any other
    exception and for a result the response model refuses. *)
Inductive http_response (A : Type) : Type :=
| Response (status_code : Z) (content : A)
| ErrorResponse (status_code : Z) (detail : string) (hdrs : headers)
| InternalServerError.
Arguments Response {A} status_code content.
Arguments ErrorResponse {A} status_code detail hdrs.
Arguments InternalServerError {A}.

Definition HTTP_200_OK : Z := 200.

Definition respond {A B} (status_code : Z) (response_model : A -> option B)
    (o : outcome A) : http_response B :=
  match o with
  | Ok a =>
      match response_model a with
      | Some b => Response status_code b
      | None => InternalServerError
      end
  | Raise (HTTPException s d h) => ErrorResponse s d h
  | Raise _ => InternalServerError
  end.


Definition GET_api_tasks {token : Type} (jwt : Jose.t token) (settings : Settings)
    (tok : token) (now : datetime) (db : Database)
    : http_response (list TaskResponse.t) * Database :=
  let (o, db') := api_get_all_tasks jwt settings tok now db in
  (respond HTTP_200_OK TaskResponse_list o, db').

Definition GET_api_tasks_id {token : Type} (jwt : Jose.t token) (settings : Settings)
    (tok : token) (task_id : Z) (now : datetime) (db : Database)
    : http_response TaskResponse.t * Database :=
  let (o, db') := api_get_task_by_id jwt settings tok task_id now db in
  (respond HTTP_200_OK TaskResponse_from_attributes o, db').

Definition PUT_api_tasks_id {token : Type} (jwt : Jose.t token) (settings : Settings)
    (tok : token) (task_id : Z) (task_update : TaskUpdate.t) (now : datetime)
    (db : Database) : http_response TaskResponse.t * Database :=
  let (o, db') := api_update_task jwt settings tok task_id task_update now db in
  (respond HTTP_200_OK TaskResponse_from_attributes o, db').



(** The patch [{"is_completed": null}]. *)
Definition null_flag : TaskUpdate.t := TaskUpdate.Build None None (Some None).

(** Every field the patch carries already has that value in the row. *)
Definition patch_agrees (patch : TaskUpdate.t) (t : Task.t) : Prop :=
  (forall v, TaskUpdate.title patch = Some v -> v = Task.title t)
  /\ (forall v, TaskUpdate.description patch = Some v -> v = Task.description t)
  /\ (forall v, TaskUpdate.is_completed patch = Some v -> v = Task.is_completed t).

(** The patch [{}]. *)
Definition empty_patch : TaskUpdate.t := TaskUpdate.Build None None None.

(** The time a token lives when [create_access_token] is left to choose. *)
Definition default_expiry (settings : Settings) (now : datetime) : datetime :=
  now + timedelta_minutes (ACCESS_TOKEN_EXPIRE_MINUTES settings).

(* ===================================================================== *)
(** * Properties *)
(* ===================================================================== *)

Unset Implicit Arguments.

(** Expose the state passing of a handler. *)
Ltac session :=
  unfold bind, ret, raise, lift, query_user_first, query_task_first, query_task_all.

(** ** Lists as tables *)

Lemma find_none_iff {A} (p : A -> bool) (l : list A) :
  find p l = None <-> forall x, In x l -> p x = false.
Proof.
  split.
  - intros H x Hx. exact (find_none p l H x Hx).
  - induction l as [|a l IH]; intros H; simpl; [reflexivity|].
    rewrite (H a (or_introl eq_refl)). apply IH. intros x Hx. apply H. now right.
Qed.

Lemma key_unique {A} (key : A -> Z) (l : list A) (a b : A) :
  NoDup (map key l) -> In a l -> In b l -> key a = key b -> a = b.
Proof.
  induction l as [|x l IH]; simpl; intros Hnd Ha Hb Hk; [contradiction|].
  inversion Hnd as [|? ? Hnotin Hnd']; subst.
  destruct Ha as [->|Ha], Hb as [->|Hb]; auto.
  - exfalso. apply Hnotin. rewrite Hk. now apply in_map.
  - exfalso. apply Hnotin. rewrite <- Hk. now apply in_map.
Qed.

Lemma find_by_key {A} (key : A -> Z) (l : list A) (a : A) :
  NoDup (map key l) -> In a l -> find (fun x => key x =? key a) l = Some a.
Proof.
  intros Hnd Ha.
  destruct (find (fun x => key x =? key a) l) as [b|] eqn:E.
  - apply find_some in E as [Hb Hk]. apply Z.eqb_eq in Hk.
    f_equal. eapply (@key_unique _ key); eauto.
  - rewrite find_none_iff in E. specialize (E a Ha). rewrite Z.eqb_refl in E. discriminate.
Qed.

Lemma next_id_above (ids : list Z) (i : Z) : In i ids -> i < next_id ids.
Proof.
  unfold next_id. induction ids as [|j ids IH]; cbn [fold_right In]; [contradiction|].
  intros [->|H]; [lia|]. specialize (IH H). lia.
Qed.

Lemma next_id_fresh (ids : list Z) : ~ In (next_id ids) ids.
Proof. intros H. apply next_id_above in H. lia. Qed.

Lemma find_fresh_row (l : list User.t) (row : User.t) :
  ~ In (User.id row) (map User.id l) ->
  find (fun u => User.id u =? User.id row) (l ++ [row]) = Some row.
Proof.
  induction l as [|a l IH]; simpl; intros H.
  - rewrite Z.eqb_refl. reflexivity.
  - destruct (User.id a =? User.id row) eqn:E.
    + apply Z.eqb_eq in E. exfalso. apply H. now left.
    + apply IH. intros Hin. apply H. now right.
Qed.

Lemma find_fresh_task (l : list Task.t) (row : Task.t) :
  ~ In (Task.id row) (map Task.id l) ->
  find (fun t => Task.id t =? Task.id row) (l ++ [row]) = Some row.
Proof.
  induction l as [|a l IH]; simpl; intros H.
  - rewrite Z.eqb_refl. reflexivity.
  - destruct (Task.id a =? Task.id row) eqn:E.
    + apply Z.eqb_eq in E. exfalso. apply H. now left.
    + apply IH. intros Hin. apply H. now right.
Qed.

(** ** Ownership-scoped lookups *)

Lemma owned_task_true (task_id : Z) (u : User.t) (t : Task.t) :
  owned_task task_id u t = true <-> Task.id t = task_id /\ Task.user_id t = User.id u.
Proof. unfold owned_task. rewrite andb_true_iff, !Z.eqb_eq. tauto. Qed.

Lemma find_owned_none (db : Database) (u : User.t) (task_id : Z) :
  find (owned_task task_id u) (tasks db) = None <-> ~ has_owned_task db u task_id.
Proof.
  rewrite find_none_iff. unfold has_owned_task. split.
  - intros H (t & Hin & Hid & Hown). specialize (H t Hin).
    assert (owned_task task_id u t = true) by (apply owned_task_true; auto). congruence.
  - intros H t Hin. destruct (owned_task task_id u t) eqn:E; [|reflexivity].
    exfalso. apply H. exists t. apply owned_task_true in E. tauto.
Qed.

Lemma find_owned_some (db : Database) (u : User.t) (task_id : Z) (t : Task.t) :
  find (owned_task task_id u) (tasks db) = Some t ->
  In t (tasks db) /\ Task.id t = task_id /\ Task.user_id t = User.id u.
Proof.
  intros H. apply find_some in H as [Hin Hp]. apply owned_task_true in Hp. tauto.
Qed.

Lemma foreign_task_not_owned (db : Database) (u : User.t) (t : Task.t) :
  NoDup (map Task.id (tasks db)) -> In t (tasks db) ->
  Task.user_id t <> User.id u -> ~ has_owned_task db u (Task.id t).
Proof.
  intros Hnd Hin Hneq (t' & Hin' & Hid & Hown).
  assert (t' = t) by (eapply (@key_unique _ Task.id); eauto; congruence). subst t'. contradiction.
Qed.

(** ** Attribute writes keep identity, owner and creation time *)

Lemma setattr_frame (t : Task.t) (f : task_field) :
  Task.id (setattr t f) = Task.id t
  /\ Task.user_id (setattr t f) = Task.user_id t
  /\ Task.created_at (setattr t f) = Task.created_at t
  /\ Task.updated_at (setattr t f) = Task.updated_at t.
Proof. destruct f; simpl; auto. Qed.

Lemma fold_setattr_frame (fs : list task_field) (t : Task.t) :
  Task.id (fold_left setattr fs t) = Task.id t
  /\ Task.user_id (fold_left setattr fs t) = Task.user_id t
  /\ Task.created_at (fold_left setattr fs t) = Task.created_at t
  /\ Task.updated_at (fold_left setattr fs t) = Task.updated_at t.
Proof.
  revert t. induction fs as [|f fs IH]; intros t; simpl; [auto|].
  destruct (IH (setattr t f)) as (H1 & H2 & H3 & H4).
  destruct (setattr_frame t f) as (G1 & G2 & G3 & G4).
  rewrite H1, H2, H3, H4. auto.
Qed.

(** ** UPDATE and DELETE by primary key touch one owner's rows *)

Lemma update_row_others (u : User.t) (row : Task.t) (l : list Task.t) :
  Task.user_id row = User.id u ->
  (forall r, In r l -> Task.id r = Task.id row -> Task.user_id r = User.id u) ->
  filter (fun t => negb (Task.user_id t =? User.id u)) (update_row row l)
  = filter (fun t => negb (Task.user_id t =? User.id u)) l.
Proof.
  intros Hrow. induction l as [|r l IH]; intros Hl; simpl; [reflexivity|].
  rewrite IH by (intros r' Hr'; apply Hl; now right).
  destruct (Task.id r =? Task.id row) eqn:E.
  - apply Z.eqb_eq in E. rewrite (Hl r (or_introl eq_refl) E), Hrow.
    rewrite Z.eqb_refl. reflexivity.
  - reflexivity.
Qed.

Lemma delete_row_others (u : User.t) (row : Task.t) (l : list Task.t) :
  (forall r, In r l -> Task.id r = Task.id row -> Task.user_id r = User.id u) ->
  filter (fun t => negb (Task.user_id t =? User.id u))
         (filter (fun r => negb (Task.id r =? Task.id row)) l)
  = filter (fun t => negb (Task.user_id t =? User.id u)) l.
Proof.
  induction l as [|r l IH]; intros Hl; simpl; [reflexivity|].
  specialize (IH (fun r' Hr' => Hl r' (or_intror Hr'))).
  destruct (Task.id r =? Task.id row) eqn:E; simpl.
  - apply Z.eqb_eq in E. rewrite (Hl r (or_introl eq_refl) E), Z.eqb_refl. exact IH.
  - rewrite IH. reflexivity.
Qed.

Lemma update_row_find (row : Task.t) (l : list Task.t) :
  (exists r, In r l /\ Task.id r = Task.id row) ->
  find (fun t => Task.id t =? Task.id row) (update_row row l) = Some row.
Proof.
  induction l as [|r l IH]; intros (x & Hin & Hid); simpl in *; [contradiction|].
  destruct (Task.id r =? Task.id row) eqn:E.
  - rewrite Z.eqb_refl. reflexivity.
  - rewrite E. apply IH. destruct Hin as [->|Hin].
    + apply Z.eqb_neq in E. contradiction.
    + eauto.
Qed.

(** ** The task handlers, case by case *)

Lemma get_task_by_id_run (task_id : Z) (u : User.t) (db : Database) :
  get_task_by_id task_id u db
  = match find (owned_task task_id u) (tasks db) with
    | Some t => (Ok t, db)
    | None => (Raise task_not_found, db)
    end.
Proof.
  unfold get_task_by_id. session. destruct (find _ _); reflexivity.
Qed.

Lemma delete_task_run (task_id : Z) (u : User.t) (db : Database) :
  delete_task task_id u db
  = match find (owned_task task_id u) (tasks db) with
    | Some t => (Ok tt, Build_Database (users db)
                          (filter (fun r => negb (Task.id r =? Task.id t)) (tasks db)))
    | None => (Raise task_not_found, db)
    end.
Proof.
  unfold delete_task, commit_delete. session. destruct (find _ _); reflexivity.
Qed.

Lemma update_task_missing (task_id : Z) (patch : TaskUpdate.t) (u : User.t)
    (now : datetime) (db : Database) :
  find (owned_task task_id u) (tasks db) = None ->
  update_task task_id patch u now db = (Raise task_not_found, db).
Proof.
  intros H. unfold update_task. session. rewrite H. reflexivity.
Qed.

(** The three ways an update of a task that was found can end. *)
Lemma update_task_found (task_id : Z) (patch : TaskUpdate.t) (u : User.t)
    (now : datetime) (db : Database) (t : Task.t) :
  NoDup (map Task.id (tasks db)) ->
  find (owned_task task_id u) (tasks db) = Some t ->
  let t' := fold_left setattr (model_dump_exclude_unset patch) t in
  update_task task_id patch u now db
  = if negb (net_change t t') then (Ok t, db)
    else if title_changed t t'
            && match Task.title t' with None => true | Some _ => false end
    then (Raise IntegrityError, db)
    else (Ok (set_updated_at t' now),
          Build_Database (users db) (update_row (set_updated_at t' now) (tasks db))).
Proof.
  intros Hnd Hfind t'.
  assert (Hin : In t (tasks db)) by (apply find_some in Hfind; tauto).
  unfold update_task, bind, query_task_first. rewrite Hfind. fold t'.
  unfold flush_update, refresh_task.
  destruct (negb (net_change t t')).
  - rewrite (@find_by_key _ Task.id _ _ Hnd Hin). reflexivity.
  - destruct (title_changed t t' && _); [reflexivity|].
    cbn [tasks].
    assert (Hid : Task.id (set_updated_at t' now) = Task.id t).
    { unfold set_updated_at; simpl. apply (fold_setattr_frame _ t). }
    rewrite <- Hid, update_row_find; [reflexivity|].
    exists t. split; [exact Hin | now rewrite Hid].
Qed.

Lemma update_task_result_owner (task_id : Z) (patch : TaskUpdate.t) (u : User.t)
    (now : datetime) (db : Database) (r : Task.t) :
  NoDup (map Task.id (tasks db)) ->
  fst (update_task task_id patch u now db) = Ok r ->
  Task.user_id r = User.id u.
Proof.
  intros Hnd H.
  destruct (find (owned_task task_id u) (tasks db)) as [t|] eqn:E.
  - rewrite (update_task_found _ patch _ now _ _ Hnd E) in H.
    apply find_owned_some in E as (_ & _ & Hown).
    destruct (negb _); [simpl in H; congruence|].
    destruct (_ && _); simpl in H; [discriminate|].
    injection H as <-. unfold set_updated_at; simpl.
    rewrite <- Hown. apply (fold_setattr_frame _ t).
  - rewrite (update_task_missing _ patch _ now _ E) in H. discriminate.
Qed.

Lemma update_task_others (task_id : Z) (patch : TaskUpdate.t) (u : User.t)
    (now : datetime) (db : Database) :
  NoDup (map Task.id (tasks db)) ->
  users (snd (update_task task_id patch u now db)) = users db
  /\ tasks_of_others u (snd (update_task task_id patch u now db)) = tasks_of_others u db.
Proof.
  intros Hnd.
  destruct (find (owned_task task_id u) (tasks db)) as [t|] eqn:E.
  - rewrite (update_task_found _ patch _ now _ _ Hnd E).
    pose proof (find_owned_some _ _ _ _ E) as (Hin & _ & Hown).
    destruct (negb _); [auto|]. destruct (_ && _); [auto|].
    split; [reflexivity|]. unfold tasks_of_others; cbn [snd tasks].
    apply update_row_others.
    + unfold set_updated_at; simpl. rewrite <- Hown. apply (fold_setattr_frame _ t).
    + intros r Hr Hid.
      assert (r = t); [|congruence].
      eapply (@key_unique _ Task.id); eauto.
      rewrite Hid. unfold set_updated_at; simpl. apply (fold_setattr_frame _ t).
  - rewrite (update_task_missing _ patch _ now _ E). auto.
Qed.

Lemma delete_task_others (task_id : Z) (u : User.t) (db : Database) :
  NoDup (map Task.id (tasks db)) ->
  users (snd (delete_task task_id u db)) = users db
  /\ tasks_of_others u (snd (delete_task task_id u db)) = tasks_of_others u db.
Proof.
  intros Hnd. rewrite delete_task_run.
  destruct (find (owned_task task_id u) (tasks db)) as [t|] eqn:E; [|auto].
  apply find_owned_some in E as (Hin & _ & Hown).
  split; [reflexivity|]. unfold tasks_of_others; cbn [snd tasks].
  apply delete_row_others. intros r Hr Hid.
  assert (r = t); [|congruence]. eapply (@key_unique _ Task.id); eauto.
Qed.

(** ** Creating a task *)

Lemma NoDup_snoc {A} (l : list A) (x : A) :
  NoDup l -> ~ In x l -> NoDup (l ++ [x]).
Proof.
  induction l as [|a l IH]; simpl; intros Hnd Hx.
  - constructor; [intros []|constructor].
  - inversion Hnd as [|? ? Ha Hl]; subst. constructor.
    + rewrite in_app_iff. simpl. intros [H|[H|[]]]; [contradiction|].
      apply Hx. now left.
    + apply IH; [exact Hl|]. intros H. apply Hx. now right.
Qed.

(** The row a new task gets. *)
Lemma create_task_run (task : TaskCreate.t) (u : User.t) (now : datetime)
    (db : Database) :
  let row := Task.Build (next_id (map Task.id (tasks db))) (Some (TaskCreate.title task))
                        (TaskCreate.description task) (Some false) now now (User.id u) in
  create_task task u now db = (Ok row, Build_Database (users db) (tasks db ++ [row])).
Proof.
  intros row. unfold create_task, bind, flush_insert_task, refresh_task. cbn [tasks].
  fold row. pose proof (find_fresh_task (tasks db) row) as Hf.
  cbn [Task.id row] in Hf. rewrite Hf by apply next_id_fresh. reflexivity.
Qed.

Lemma create_task_wf (task : TaskCreate.t) (u : User.t) (now : datetime)
    (db : Database) :
  wf_db db -> wf_db (snd (create_task task u now db)).
Proof.
  intros [Htask Huser Hname Hmail Htitle]. rewrite create_task_run. cbn [snd].
  constructor; cbn [users tasks]; auto.
  - rewrite map_app. apply NoDup_snoc; [exact Htask|]. apply next_id_fresh.
  - apply Forall_app. split; [exact Htitle|]. constructor; [discriminate|constructor].
Qed.

(** A task of somebody else is invisible to [u]. *)
Lemma foreign_task_hidden (db : Database) (u : User.t) (t : Task.t) :
  wf_db db -> In t (tasks db) -> Task.user_id t <> User.id u ->
  get_task_by_id (Task.id t) u db = (Raise task_not_found, db)
  /\ (forall patch now,
        update_task (Task.id t) patch u now db = (Raise task_not_found, db))
  /\ delete_task (Task.id t) u db = (Raise task_not_found, db)
  /\ (forall l, fst (get_all_tasks u db) = Ok l -> ~ In t l).
Proof.
  intros Hwf Hin Hneq.
  pose proof (foreign_task_not_owned db u t (wf_task_pk Hwf) Hin Hneq) as Hno.
  apply find_owned_none in Hno.
  rewrite get_task_by_id_run, delete_task_run, Hno.
  split; [reflexivity|]. split; [|split; [reflexivity|]].
  - intros patch now. now apply update_task_missing.
  - intros l [= <-] Hl. apply filter_In in Hl as [_ Hl].
    apply Z.eqb_eq in Hl. contradiction.
Qed.

(** Ownership scoping of the handlers as the ORM runs them: get, update
    and delete answer 404 "Task not found" exactly when no task with the
    id is owned by [U]; a task of somebody else gives the result of a
    missing id; a task comes back only to its owner, and the rows of the
    other users are left as they were. *)
Lemma ownership_scoping :
  forall (db : Database) (U : User.t) (task_id : Z),
    wf_db db ->
    (fst (get_task_by_id task_id U db) = Raise task_not_found
       <-> ~ has_owned_task db U task_id)
    /\ (forall patch now,
          fst (update_task task_id patch U now db) = Raise task_not_found
          <-> ~ has_owned_task db U task_id)
    /\ (fst (delete_task task_id U db) = Raise task_not_found
          <-> ~ has_owned_task db U task_id)
    /\ (forall t, In t (tasks db) -> Task.id t = task_id ->
          Task.user_id t <> User.id U ->
          get_task_by_id task_id U db = (Raise task_not_found, db)
          /\ (forall patch now,
                update_task task_id patch U now db = (Raise task_not_found, db))
          /\ delete_task task_id U db = (Raise task_not_found, db))
    /\ (forall r, fst (get_task_by_id task_id U db) = Ok r ->
          Task.user_id r = User.id U)
    /\ (forall l, fst (get_all_tasks U db) = Ok l ->
          Forall (fun r => Task.user_id r = User.id U) l)
    /\ (forall patch now r, fst (update_task task_id patch U now db) = Ok r ->
          Task.user_id r = User.id U)
    /\ snd (get_task_by_id task_id U db) = db
    /\ snd (get_all_tasks U db) = db
    /\ (forall patch now,
          users (snd (update_task task_id patch U now db)) = users db
          /\ tasks_of_others U (snd (update_task task_id patch U now db))
             = tasks_of_others U db)
    /\ users (snd (delete_task task_id U db)) = users db
    /\ tasks_of_others U (snd (delete_task task_id U db)) = tasks_of_others U db.
Proof.
  intros db U task_id Hwf.
  pose proof (wf_task_pk Hwf) as Hnd.
  pose proof (find_owned_none db U task_id) as Hnone.
  assert (Hget : fst (get_task_by_id task_id U db) = Raise task_not_found
                 <-> ~ has_owned_task db U task_id).
  { rewrite get_task_by_id_run, <- Hnone.
    destruct (find _ _); simpl; split; congruence. }
  assert (Hupd : forall patch now,
             fst (update_task task_id patch U now db) = Raise task_not_found
             <-> ~ has_owned_task db U task_id).
  { intros patch now. rewrite <- Hnone.
    destruct (find (owned_task task_id U) (tasks db)) as [t|] eqn:E.
    - rewrite (update_task_found _ patch _ now _ _ Hnd E).
      destruct (negb _); [simpl; split; congruence|].
      destruct (_ && _); simpl; split; unfold task_not_found; congruence.
    - rewrite (update_task_missing _ patch _ now _ E). simpl. tauto. }
  assert (Hdel : fst (delete_task task_id U db) = Raise task_not_found
                 <-> ~ has_owned_task db U task_id).
  { rewrite delete_task_run, <- Hnone.
    destruct (find _ _); simpl; split; congruence. }
  split; [exact Hget|]. split; [exact Hupd|]. split; [exact Hdel|].
  split.
  { intros t Hin Hid Hneq. subst task_id.
    destruct (foreign_task_hidden db U t Hwf Hin Hneq) as (G & P & D & _). auto. }
  split.
  { intros r. rewrite get_task_by_id_run.
    destruct (find _ _) as [t|] eqn:E; simpl; [|discriminate].
    intros [= <-]. now apply find_owned_some in E. }
  split.
  { intros l [= <-]. apply Forall_forall. intros r Hr.
    apply filter_In in Hr as [_ Hr]. now apply Z.eqb_eq in Hr. }
  split.
  { intros patch now r. now apply update_task_result_owner. }
  split.
  { rewrite get_task_by_id_run. destruct (find _ _); reflexivity. }
  split; [reflexivity|].
  split.
  { intros patch now. now apply update_task_others. }
  now apply delete_task_others.
Qed.

(** C1.  The claim is right and the code misses a case: for a task id
    outside the 64-bit INTEGER of SQLite the query cannot be run, so get,
    update and delete end with [OverflowError] (a 500) where no task with
    that id is owned by the caller and the claim, like the handlers' own
    docstrings, promises the 404.  Evaluated at GET, PUT and DELETE
    /api/tasks/9223372036854775808 for a user of the sample store. *)
Theorem C1_out_of_range_id_raises :
  ~ has_owned_task sample_db alice 9223372036854775808
  /\ get_task_by_id_sqlite 9223372036854775808 alice sample_db
     = (Raise OverflowError, sample_db)
  /\ update_task_sqlite 9223372036854775808 complete_only alice 5000 sample_db
     = (Raise OverflowError, sample_db)
  /\ delete_task_sqlite 9223372036854775808 alice sample_db
     = (Raise OverflowError, sample_db)
  /\ fst (get_task_by_id_sqlite 9223372036854775808 alice sample_db)
     <> Raise task_not_found.
Proof.
  split.
  - intros (t & Hin & Hid & _). simpl in Hin.
    destruct Hin as [<-|[<-|[]]]; simpl in Hid; discriminate.
  - repeat split; try reflexivity. simpl. discriminate.
Qed.

Lemma sample_db_wf : wf_db sample_db.
Proof.
  constructor; simpl.
  - repeat constructor; simpl; intuition discriminate.
  - repeat constructor; simpl; intuition discriminate.
  - repeat constructor; simpl; intuition discriminate.
  - repeat constructor; simpl; intuition discriminate.
  - repeat constructor; simpl; discriminate.
Qed.

(** Ownership scoping of the three routes that take a task id, with the
    bound of the driver.  For an id within SQLite's INTEGER range, get,
    update and delete answer 404 "Task not found" exactly when no task
    with the id is owned by the caller [U]; a task of somebody else gives
    the result of a missing id and leaves the store as it was; a task
    comes back only to its owner and the rows of the other users are left
    as they were.  For an id outside the range the three end with
    [OverflowError] and write nothing. *)
Theorem ownership_scoping_in_range :
  forall (db : Database) (U : User.t) (task_id : Z),
    wf_db db ->
    (sqlite_integer task_id = true ->
       (fst (get_task_by_id_sqlite task_id U db) = Raise task_not_found
          <-> ~ has_owned_task db U task_id)
       /\ (forall patch now,
             fst (update_task_sqlite task_id patch U now db) = Raise task_not_found
             <-> ~ has_owned_task db U task_id)
       /\ (fst (delete_task_sqlite task_id U db) = Raise task_not_found
             <-> ~ has_owned_task db U task_id)
       /\ (forall t, In t (tasks db) -> Task.id t = task_id ->
             Task.user_id t <> User.id U ->
             get_task_by_id_sqlite task_id U db = (Raise task_not_found, db)
             /\ (forall patch now,
                   update_task_sqlite task_id patch U now db
                   = (Raise task_not_found, db))
             /\ delete_task_sqlite task_id U db = (Raise task_not_found, db))
       /\ (forall r, fst (get_task_by_id_sqlite task_id U db) = Ok r ->
             Task.user_id r = User.id U)
       /\ (forall patch now r,
             fst (update_task_sqlite task_id patch U now db) = Ok r ->
             Task.user_id r = User.id U)
       /\ snd (get_task_by_id_sqlite task_id U db) = db
       /\ (forall patch now,
             users (snd (update_task_sqlite task_id patch U now db)) = users db
             /\ tasks_of_others U (snd (update_task_sqlite task_id patch U now db))
                = tasks_of_others U db)
       /\ users (snd (delete_task_sqlite task_id U db)) = users db
       /\ tasks_of_others U (snd (delete_task_sqlite task_id U db))
          = tasks_of_others U db)
    /\ (sqlite_integer task_id = false ->
          get_task_by_id_sqlite task_id U db = (Raise OverflowError, db)
          /\ (forall patch now,
                update_task_sqlite task_id patch U now db = (Raise OverflowError, db))
          /\ delete_task_sqlite task_id U db = (Raise OverflowError, db)).
Proof.
  intros db U task_id Hwf.
  unfold get_task_by_id_sqlite, update_task_sqlite, delete_task_sqlite.
  split; intros Hrange; rewrite Hrange.
  - destruct (ownership_scoping db U task_id Hwf)
      as (H1 & H2 & H3 & H4 & H5 & _ & H7 & H8 & _ & H10 & H11 & H12).
    repeat (split; [assumption|]). assumption.
  - repeat split.
Qed.

Lemma ownership_scoping_in_range_witness :
  wf_db sample_db
  /\ get_task_by_id_sqlite 1 bob sample_db = (Raise task_not_found, sample_db)
  /\ delete_task_sqlite 1 bob sample_db = (Raise task_not_found, sample_db).
Proof.
  split; [exact sample_db_wf|].
  destruct (ownership_scoping_in_range sample_db bob 1 sample_db_wf) as [Hin _].
  destruct (Hin eq_refl) as (_ & _ & _ & Hforeign & _).
  destruct (Hforeign buy_milk) as (Hget & _ & Hdel).
  - simpl. left. reflexivity.
  - reflexivity.
  - simpl. discriminate.
  - split; assumption.
Defined.

(** ** Lookups by a unique string column *)

Lemma existsb_find {A} (p : A -> bool) (l : list A) :
  existsb p l = match find p l with Some _ => true | None => false end.
Proof.
  induction l as [|a l IH]; simpl; [reflexivity|].
  destruct (p a); simpl; auto.
Qed.

Lemma name_unique {A} (key : A -> string) (l : list A) (a b : A) :
  NoDup (map key l) -> In a l -> In b l -> key a = key b -> a = b.
Proof.
  induction l as [|x l IH]; simpl; intros Hnd Ha Hb Hk; [contradiction|].
  inversion Hnd as [|? ? Hnotin Hnd']; subst.
  destruct Ha as [->|Ha], Hb as [->|Hb]; auto.
  - exfalso. apply Hnotin. rewrite Hk. now apply in_map.
  - exfalso. apply Hnotin. rewrite <- Hk. now apply in_map.
Qed.

Lemma find_by_name {A} (key : A -> string) (l : list A) (a : A) :
  NoDup (map key l) -> In a l -> find (fun x => String.eqb (key x) (key a)) l = Some a.
Proof.
  intros Hnd Ha.
  destruct (find (fun x => String.eqb (key x) (key a)) l) as [b|] eqn:E.
  - apply find_some in E as [Hb Hk]. apply String.eqb_eq in Hk.
    f_equal. eapply name_unique; eauto.
  - rewrite find_none_iff in E. specialize (E a Ha).
    rewrite String.eqb_refl in E. discriminate.
Qed.

Lemma find_no_name {A} (key : A -> string) (l : list A) (name : string) :
  (forall x, In x l -> key x <> name) ->
  find (fun x => String.eqb (key x) name) l = None.
Proof.
  intros H. apply find_none_iff. intros x Hx. apply String.eqb_neq. now apply H.
Qed.

(** ** Registration and login, case by case *)

Section Auth.

Variable token : Type.
Variable jwt : Jose.t token.
Variable password_context : CryptContext.t.
Variable settings : Settings.

Lemma register_user_run (user : UserCreate.t) (salt : string) (now : datetime)
    (db : Database) :
  register_user password_context user salt now db
  = if username_taken (UserCreate.username user) db then
      (Raise (HTTPException HTTP_400_BAD_REQUEST "Username already registered" []), db)
    else if email_taken (UserCreate.email user) db then
      (Raise (HTTPException HTTP_400_BAD_REQUEST "Email already registered" []), db)
    else
      match hash_password password_context (UserCreate.password user) salt with
      | Raise e => (Raise e, db)
      | Ok hashed =>
          (Ok (registered_row user hashed now db),
           Build_Database (users db ++ [registered_row user hashed now db]) (tasks db))
      end.
Proof.
  unfold register_user. session.
  unfold username_taken, email_taken at 1. rewrite !existsb_find.
  destruct (find _ (users db)) eqn:Ename; [reflexivity|].
  destruct (find (fun u => String.eqb (User.email u) _) (users db)) eqn:Email;
    [reflexivity|].
  destruct (hash_password _ _ _) as [hashed|e]; [|reflexivity].
  unfold flush_insert_user, username_taken, email_taken.
  rewrite !existsb_find, Ename, Email. cbn [orb].
  unfold refresh_user. cbn [users].
  pose proof (find_fresh_row (users db) (registered_row user hashed now db)) as Hf.
  unfold registered_row in *. cbn [User.id] in Hf.
  rewrite Hf by apply next_id_fresh. reflexivity.
Qed.

Lemma login_user_run (user : UserLogin.t) (now : datetime) (db : Database) :
  login_user jwt password_context settings user now db
  = match find (fun u => String.eqb (User.username u) (UserLogin.username user))
               (users db) with
    | None => (Raise login_exception, db)
    | Some u =>
        match verify_password password_context (UserLogin.password user)
                              (User.hashed_password u) with
        | Raise e => (Raise e, db)
        | Ok false => (Raise login_exception, db)
        | Ok true =>
            match create_access_token jwt settings [("sub", CStr (User.username u))]
                    (Some (timedelta_minutes (ACCESS_TOKEN_EXPIRE_MINUTES settings)))
                    now with
            | Raise e => (Raise e, db)
            | Ok tok => (Ok (Token.Build tok "bearer"), db)
            end
        end
    end.
Proof.
  unfold login_user. session.
  destruct (find _ _) as [u|]; [|reflexivity].
  destruct (verify_password _ _ _) as [[|]|e]; reflexivity.
Qed.

End Auth.

(** A login for a username that does not exist and a login for which
    [verify_password] returns false are rejected with the same exception,
    HTTP 401 with detail "Incorrect username or password" (and the same
    WWW-Authenticate header), and neither changes the store. *)
Theorem login_rejections_alike :
  forall (token : Type) (jwt : Jose.t token) (ctx : CryptContext.t) (settings : Settings)
         (db1 db2 : Database) (req1 req2 : UserLogin.t) (now1 now2 : datetime)
         (u : User.t),
    (forall x, In x (users db1) -> User.username x <> UserLogin.username req1) ->
    wf_db db2 ->
    In u (users db2) ->
    User.username u = UserLogin.username req2 ->
    verify_password ctx (UserLogin.password req2) (User.hashed_password u) = Ok false ->
    login_user jwt ctx settings req1 now1 db1
      = (Raise (HTTPException 401 "Incorrect username or password"
                              [("WWW-Authenticate", "Bearer")]), db1)
    /\ login_user jwt ctx settings req2 now2 db2
      = (Raise (HTTPException 401 "Incorrect username or password"
                              [("WWW-Authenticate", "Bearer")]), db2)
    /\ fst (login_user jwt ctx settings req1 now1 db1)
       = fst (login_user jwt ctx settings req2 now2 db2).
Proof.
  intros token jwt ctx settings db1 db2 req1 req2 now1 now2 u
         Hnone Hwf Hin Hname Hverify.
  assert (H1 : login_user jwt ctx settings req1 now1 db1 = (Raise login_exception, db1)).
  { rewrite login_user_run, (find_no_name User.username _ _ Hnone). reflexivity. }
  assert (H2 : login_user jwt ctx settings req2 now2 db2 = (Raise login_exception, db2)).
  { rewrite login_user_run, <- Hname.
    rewrite (find_by_name User.username _ _ (wf_username_unique Hwf) Hin).
    rewrite Hverify. reflexivity. }
  rewrite H1, H2. repeat split; reflexivity.
Qed.

Lemma login_rejections_alike_witness :
  (forall x, In x (users sample_db) ->
     User.username x <> UserLogin.username (UserLogin.Build "carol" "secret1"))
  /\ fst (login_user clear_jwt bcrypt_context dev_settings
            (UserLogin.Build "carol" "secret1") 5000 sample_db)
     = fst (login_user clear_jwt bcrypt_context dev_settings
            (UserLogin.Build "alice" "letmein") 6000 sample_db).
Proof.
  assert (Hnone : forall x, In x (users sample_db) ->
            User.username x <> UserLogin.username (UserLogin.Build "carol" "secret1")).
  { simpl. intros x [<-|[<-|[]]]; simpl; discriminate. }
  split; [exact Hnone|].
  apply (login_rejections_alike clear_token clear_jwt bcrypt_context dev_settings
           sample_db sample_db (UserLogin.Build "carol" "secret1")
           (UserLogin.Build "alice" "letmein") 5000 6000 alice).
  - exact Hnone.
  - exact sample_db_wf.
  - simpl. left. reflexivity.
  - reflexivity.
  - reflexivity.
Defined.

(** C2.  The claim is right and the code misses a case: [login_user]
    looks at the password of a stored username only, and when
    [verify_password] raises there (passlib refuses a password that holds
    a NUL; it cannot identify a stored value that is not a digest)
    nothing catches the exception.  The stored username then answers a
    500 and the unknown one the 401, so the two runs are told apart.
    Evaluated at the password "secret", NUL, "1" for the stored "dave"
    and the unknown "zoe", and at any password for "erin", whose stored
    value is not a digest. *)
Theorem C2_login_tells_stored_from_unknown :
  login_user clear_jwt nul_checking_context dev_settings
             (UserLogin.Build "dave" nul_password) 5000 login_db
    = (Raise PasswordValueError, login_db)
  /\ login_user clear_jwt nul_checking_context dev_settings
                (UserLogin.Build "zoe" nul_password) 5000 login_db
     = (Raise (HTTPException 401 "Incorrect username or password"
                             [("WWW-Authenticate", "Bearer")]), login_db)
  /\ login_user clear_jwt bcrypt_context dev_settings
                (UserLogin.Build "erin" "secret1") 5000 login_db
     = (Raise UnknownHashError, login_db)
  /\ login_user clear_jwt bcrypt_context dev_settings
                (UserLogin.Build "zoe" "secret1") 5000 login_db
     = (Raise (HTTPException 401 "Incorrect username or password"
                             [("WWW-Authenticate", "Bearer")]), login_db)
  /\ fst (login_user clear_jwt nul_checking_context dev_settings
            (UserLogin.Build "dave" nul_password) 5000 login_db)
     <> fst (login_user clear_jwt nul_checking_context dev_settings
               (UserLogin.Build "zoe" nul_password) 5000 login_db).
Proof.
  assert (Hstored : login_user clear_jwt nul_checking_context dev_settings
                      (UserLogin.Build "dave" nul_password) 5000 login_db
                    = (Raise PasswordValueError, login_db))
    by (vm_compute; reflexivity).
  assert (Hunknown : login_user clear_jwt nul_checking_context dev_settings
                       (UserLogin.Build "zoe" nul_password) 5000 login_db
                     = (Raise login_exception, login_db))
    by (vm_compute; reflexivity).
  split; [exact Hstored|]. split; [exact Hunknown|].
  split; [vm_compute; reflexivity|]. split; [vm_compute; reflexivity|].
  rewrite Hstored, Hunknown. simpl. discriminate.
Qed.

Lemma taken_iff (db : Database) (name : string) (key : User.t -> string) :
  existsb (fun u => String.eqb (key u) name) (users db) = true
  <-> exists u, In u (users db) /\ key u = name.
Proof.
  rewrite existsb_exists. split; intros (u & Hin & H); exists u; split; auto;
    now apply String.eqb_eq.
Qed.

(** C3. Atomic registration: a request whose username or email is already
    taken fails with HTTP 400 and leaves the store exactly as it was; and
    every registration either succeeds, appending exactly one user row
    (with the requested username and email) and touching nothing else, or
    raises and changes nothing. *)
Theorem C3_register_all_or_nothing :
  forall (ctx : CryptContext.t) (db : Database) (req : UserCreate.t)
         (salt : string) (now : datetime),
    (exists u, In u (users db)
               /\ (User.username u = UserCreate.username req
                   \/ User.email u = UserCreate.email req)) ->
    (exists detail,
        register_user ctx req salt now db = (Raise (HTTPException 400 detail []), db))
    /\ (forall (req' : UserCreate.t) (salt' : string) (now' : datetime),
          (exists u,
              register_user ctx req' salt' now' db
                = (Ok u, Build_Database (users db ++ [u]) (tasks db))
              /\ User.username u = UserCreate.username req'
              /\ User.email u = UserCreate.email req')
          \/ (exists e, register_user ctx req' salt' now' db = (Raise e, db))).
Proof.
  intros ctx db req salt now (u & Hin & Htaken). split.
  - rewrite register_user_run.
    destruct (username_taken (UserCreate.username req) db) eqn:Ename; [eauto|].
    destruct (email_taken (UserCreate.email req) db) eqn:Email; [eauto|].
    exfalso. destruct Htaken as [H|H].
    + assert (username_taken (UserCreate.username req) db = true);
        [apply (taken_iff db _ User.username); eauto | congruence].
    + assert (email_taken (UserCreate.email req) db = true);
        [apply (taken_iff db _ User.email); eauto | congruence].
  - intros req' salt' now'. rewrite register_user_run.
    destruct (username_taken _ db); [right; eauto|].
    destruct (email_taken _ db); [right; eauto|].
    destruct (hash_password ctx _ salt') as [hashed|e]; [left|right; eauto].
    exists (registered_row req' hashed now' db). repeat split; reflexivity.
Qed.

Lemma C3_witness :
  (exists u, In u (users sample_db)
             /\ (User.username u = UserCreate.username
                                     (UserCreate.Build "alice" "other@x.com" "secret2")
                 \/ User.email u = UserCreate.email
                                     (UserCreate.Build "alice" "other@x.com" "secret2")))
  /\ exists detail,
       register_user bcrypt_context (UserCreate.Build "alice" "other@x.com" "secret2")
                     "salt" 7000 sample_db
       = (Raise (HTTPException 400 detail []), sample_db).
Proof.
  assert (Htaken : exists u, In u (users sample_db)
             /\ (User.username u = UserCreate.username
                                     (UserCreate.Build "alice" "other@x.com" "secret2")
                 \/ User.email u = UserCreate.email
                                     (UserCreate.Build "alice" "other@x.com" "secret2"))).
  { exists alice. split; [simpl; left; reflexivity | left; reflexivity]. }
  split; [exact Htaken|].
  exact (proj1 (C3_register_all_or_nothing bcrypt_context sample_db
                  (UserCreate.Build "alice" "other@x.com" "secret2") "salt" 7000 Htaken)).
Defined.

(** ** The password hasher behind registration *)

Lemma bcrypt_verify_hash (secret salt h : string) :
  CryptContext.hash bcrypt_context secret salt = Ok h ->
  CryptContext.verify bcrypt_context secret h = Ok true.
Proof.
  cbn [CryptContext.hash CryptContext.verify bcrypt_context].
  unfold bcrypt_hash, bcrypt_verify, bcrypt_identify. intros [= <-].
  simpl. replace (String.prefix "" secret) with true by (destruct secret; reflexivity).
  rewrite String.eqb_refl. reflexivity.
Qed.


Section PasswordStorage.

Variable password_context : CryptContext.t.

(** The hasher's contract: a digest it produced verifies against the
    secret it was produced from, and is never that secret itself. *)
Hypothesis verify_hash :
  forall secret salt h,
    CryptContext.hash password_context secret salt = Ok h ->
    CryptContext.verify password_context secret h = Ok true.

Hypothesis hash_opaque :
  forall secret salt h,
    CryptContext.hash password_context secret salt = Ok h -> h <> secret.


End PasswordStorage.


(** ** What a user response shows *)

(** C7. No credential in a user representation: the body sent for a user
    (the registration response and /api/auth/me) has exactly the keys
    username, email, id and created_at, holding those four attributes of
    the row; it is the same for two rows that differ only in
    [hashed_password], and the registration response is fixed by the
    username, the email, the new id and the clock, whatever the password
    and its digest. *)
Theorem C7_user_response_hides_credentials :
  (forall u : User.t,
      serialize_user u
      = [ ("username", JStr (User.username u)); ("email", JStr (User.email u));
          ("id", JInt (User.id u)); ("created_at", JDatetime (User.created_at u)) ])
  /\ (forall u : User.t,
      map fst (serialize_user u) = ["username"; "email"; "id"; "created_at"])
  /\ (forall (u : User.t) (h : string),
      serialize_user (User.Build (User.id u) (User.username u) (User.email u) h
                                 (User.created_at u))
      = serialize_user u)
  /\ (forall (ctx : CryptContext.t) (req : UserCreate.t) (salt : string)
             (now : datetime) (db db' : Database) (body : list (string * json)),
      api_register ctx req salt now db = (Ok body, db') ->
      body = [ ("username", JStr (UserCreate.username req));
               ("email", JStr (UserCreate.email req));
               ("id", JInt (next_id (map User.id (users db))));
               ("created_at", JDatetime now) ])
  /\ (forall (token : Type) (jwt : Jose.t token) (settings : Settings) (tok : token)
             (now : datetime) (db db' : Database) (body : list (string * json)),
      api_me jwt settings tok now db = (Ok body, db') ->
      exists u, In u (users db) /\ body = serialize_user u).
Proof.
  split; [reflexivity|]. split; [reflexivity|]. split; [reflexivity|]. split.
  - intros ctx req salt now db db' body. unfold api_register, bind.
    rewrite register_user_run.
    destruct (username_taken _ db); [discriminate|].
    destruct (email_taken _ db); [discriminate|].
    destruct (hash_password ctx _ salt); [|discriminate].
    unfold ret. intros [= <- _]. reflexivity.
  - intros token jwt settings tok now db db' body.
    unfold api_me, get_current_user_info, get_current_user, bind, raise, ret,
      query_user_first.
    destruct (Jose.decode _ _ _ _ _) as [e|payload]; [discriminate|].
    destruct (dict_get payload "sub") as [[name| | |]|]; try discriminate.
    destruct (find _ (users db)) as [u|] eqn:E; [|discriminate].
    intros [= <- _]. exists u. split; [|reflexivity].
    apply find_some in E. tauto.
Qed.

Lemma C7_witness :
  map fst (serialize_user alice) = ["username"; "email"; "id"; "created_at"]
  /\ exists body db',
       api_register bcrypt_context (UserCreate.Build "carol" "c@x.com" "secret3")
                    "salt" 7000 sample_db = (Ok body, db')
       /\ body = [ ("username", JStr "carol"); ("email", JStr "c@x.com");
                   ("id", JInt 3); ("created_at", JDatetime 7000) ].
Proof.
  destruct C7_user_response_hides_credentials as (_ & Hkeys & _ & Hreg & _).
  split; [exact (Hkeys alice)|].
  assert (Hrun :
            api_register bcrypt_context (UserCreate.Build "carol" "c@x.com" "secret3")
                         "salt" 7000 sample_db
            = (Ok (serialize_user (User.Build 3 "carol" "c@x.com" "$2b$secret3" 7000)),
               Build_Database
                 [alice; bob; User.Build 3 "carol" "c@x.com" "$2b$secret3" 7000]
                 [buy_milk; walk_dog]))
    by (vm_compute; reflexivity).
  eexists. eexists. split; [exact Hrun|].
  exact (Hreg _ _ _ _ _ _ _ Hrun).
Defined.

(** ** Deleting a user *)

Lemma filter_complement {A} (p : A -> bool) (l : list A) :
  filter p (filter (fun x => negb (p x)) l) = [].
Proof.
  induction l as [|a l IH]; simpl; [reflexivity|].
  destruct (p a) eqn:E; simpl; [exact IH|]. rewrite E. exact IH.
Qed.

Lemma filter_idem {A} (p : A -> bool) (l : list A) :
  filter p (filter p l) = filter p l.
Proof.
  induction l as [|a l IH]; simpl; [reflexivity|].
  destruct (p a) eqn:E; simpl; [|exact IH]. rewrite E, IH. reflexivity.
Qed.

(** C9. Cascade: deleting user [u] leaves no task owned by [u], keeps
    every task of every other user, unchanged and in order, removes [u]'s
    row and keeps every other user row. *)
Theorem C9_delete_user_cascades :
  forall (db : Database) (u : User.t),
    fst (delete_user u db) = Ok tt
    /\ (forall t, In t (tasks (snd (delete_user u db))) ->
          Task.user_id t <> User.id u)
    /\ tasks_of u (snd (delete_user u db)) = []
    /\ tasks (snd (delete_user u db)) = tasks_of_others u db
    /\ tasks_of_others u (snd (delete_user u db)) = tasks_of_others u db
    /\ (forall t, In t (tasks db) -> Task.user_id t <> User.id u ->
          In t (tasks (snd (delete_user u db))))
    /\ (forall x, In x (users (snd (delete_user u db)))
                  <-> In x (users db) /\ User.id x <> User.id u).
Proof.
  intros db u. unfold delete_user, tasks_of, tasks_of_others; cbn [fst snd tasks users].
  assert (Hkept : forall t,
            In t (filter (fun t => negb (Task.user_id t =? User.id u)) (tasks db))
            <-> In t (tasks db) /\ Task.user_id t <> User.id u).
  { intros t. rewrite filter_In, negb_true_iff, Z.eqb_neq. tauto. }
  split; [reflexivity|]. split; [intros t Ht; now apply Hkept in Ht|].
  split; [apply (filter_complement (fun t => Task.user_id t =? User.id u))|].
  split; [reflexivity|]. split; [apply filter_idem|].
  split; [intros t Hin Hneq; apply Hkept; auto|].
  intros x. rewrite filter_In, negb_true_iff, Z.eqb_neq. tauto.
Qed.

(** ** Tokens *)

Lemma timegm_monotone (a b : datetime) : a <= b -> timegm a <= timegm b.
Proof. intros H. unfold timegm. apply Z.div_le_mono; lia. Qed.

Lemma clear_encode_supported (settings : Settings) (name : string) (e : datetime) :
  exists tok,
    Jose.encode clear_jwt [("sub", CStr name); ("exp", CDatetime e)]
                (SECRET_KEY settings) (ALGORITHM settings) = Ok tok.
Proof. eexists. reflexivity. Qed.

Lemma clear_decode_encode (key alg name : string) (e : datetime)
    (tok : clear_token) (now : datetime) :
  Jose.encode clear_jwt [("sub", CStr name); ("exp", CDatetime e)] key alg = Ok tok ->
  Jose.decode clear_jwt tok key [alg] now
  = if timegm e <? timegm now then inl ExpiredSignatureError
    else inr [("sub", CStr name); ("exp", CInt (timegm e))].
Proof.
  cbn [Jose.encode Jose.decode clear_jwt]. unfold clear_encode. intros [= <-].
  unfold clear_decode. cbn [existsb]. rewrite !String.eqb_refl. reflexivity.
Qed.

Section Tokens.

Variable token : Type.
Variable jwt : Jose.t token.
Variable password_context : CryptContext.t.
Variable settings : Settings.

Lemma get_current_user_run (tok : token) (now : datetime) (db : Database) :
  get_current_user jwt settings tok now db
  = match Jose.decode jwt tok (SECRET_KEY settings) [ALGORITHM settings] now with
    | inl _ => (Raise credentials_exception, db)
    | inr payload =>
        match dict_get payload "sub" with
        | None | Some CNull => (Raise credentials_exception, db)
        | Some (CStr name) =>
            match find (fun u => String.eqb (User.username u) name) (users db) with
            | Some u => (Ok u, db)
            | None => (Raise credentials_exception, db)
            end
        | Some (CInt _) | Some (CDatetime _) => (Raise ValidationError, db)
        end
    end.
Proof.
  unfold get_current_user. session.
  destruct (Jose.decode _ _ _ _ _) as [e|payload]; [reflexivity|].
  destruct (dict_get payload "sub") as [[name| | |]|]; try reflexivity.
  destruct (find _ _); reflexivity.
Qed.

(** An unauthenticated request stops at the dependency. *)
Lemma endpoints_need_current_user (tok : token) (now : datetime) (db : Database)
    (e : exception) :
  get_current_user jwt settings tok now db = (Raise e, db) ->
  api_me jwt settings tok now db = (Raise e, db)
  /\ (forall task, api_create_task jwt settings tok task now db = (Raise e, db))
  /\ api_get_all_tasks jwt settings tok now db = (Raise e, db)
  /\ (forall task_id, api_get_task_by_id jwt settings tok task_id now db = (Raise e, db))
  /\ (forall task_id patch,
        api_update_task jwt settings tok task_id patch now db = (Raise e, db))
  /\ (forall task_id, api_delete_task jwt settings tok task_id now db = (Raise e, db)).
Proof.
  intros H.
  unfold api_me, api_create_task, api_get_all_tasks, api_get_task_by_id,
    api_update_task, api_delete_task, bind.
  rewrite H. repeat split.
Qed.

(** The signer's contract, for the claims a login signs: the configured
    algorithm is available, and decoding a token with the key and
    algorithm it was made with gives the claims back, the expiry in whole
    seconds, unless that second is past. *)
Hypothesis encode_supported :
  forall (name : string) (e : datetime),
    exists tok,
      Jose.encode jwt [("sub", CStr name); ("exp", CDatetime e)]
                  (SECRET_KEY settings) (ALGORITHM settings) = Ok tok.

Hypothesis decode_encode :
  forall (name : string) (e : datetime) (tok : token) (now : datetime),
    Jose.encode jwt [("sub", CStr name); ("exp", CDatetime e)]
                (SECRET_KEY settings) (ALGORITHM settings) = Ok tok ->
    Jose.decode jwt tok (SECRET_KEY settings) [ALGORITHM settings] now
    = if timegm e <? timegm now then inl ExpiredSignatureError
      else inr [("sub", CStr name); ("exp", CInt (timegm e))].

(** C6. Issue and validate: a login with correct credentials returns a
    bearer token; decoded with the configured secret and algorithm while
    it has not expired, the token carries the username that logged in and
    [get_current_user] resolves it to that user; once expired it is
    rejected; and validation fails (HTTP 401) on every decoding error
    (bad signature, malformed token, lapsed expiration) and when the
    subject claim is absent. *)
Theorem C6_login_token_round_trip :
  forall (db db' : Database) (req : UserLogin.t) (now : datetime) (u : User.t),
    wf_db db -> In u (users db) ->
    User.username u = UserLogin.username req ->
    verify_password password_context (UserLogin.password req)
                    (User.hashed_password u) = Ok true ->
    wf_db db' -> In u (users db') ->
    (exists tok,
        login_user jwt password_context settings req now db
          = (Ok (Token.Build tok "bearer"), db)
        /\ (forall now',
              timegm now'
                <= timegm (now + timedelta_minutes (ACCESS_TOKEN_EXPIRE_MINUTES settings)) ->
              (exists payload,
                  Jose.decode jwt tok (SECRET_KEY settings) [ALGORITHM settings] now'
                    = inr payload
                  /\ dict_get payload "sub" = Some (CStr (UserLogin.username req)))
              /\ get_current_user jwt settings tok now' db' = (Ok u, db'))
        /\ (forall now',
              timegm (now + timedelta_minutes (ACCESS_TOKEN_EXPIRE_MINUTES settings))
                < timegm now' ->
              get_current_user jwt settings tok now' db'
                = (Raise credentials_exception, db')))
    /\ (forall tok now' e,
          Jose.decode jwt tok (SECRET_KEY settings) [ALGORITHM settings] now' = inl e ->
          get_current_user jwt settings tok now' db' = (Raise credentials_exception, db'))
    /\ (forall tok now' payload,
          Jose.decode jwt tok (SECRET_KEY settings) [ALGORITHM settings] now'
            = inr payload ->
          dict_get payload "sub" = None ->
          get_current_user jwt settings tok now' db' = (Raise credentials_exception, db')).
Proof.
  intros db db' req now u Hwf Hin Hname Hverify Hwf' Hin'.
  split; [|split].
  - set (expire := now + timedelta_minutes (ACCESS_TOKEN_EXPIRE_MINUTES settings)).
    destruct (encode_supported (User.username u) expire) as [tok Htok].
    assert (Hcreate :
              create_access_token jwt settings [("sub", CStr (User.username u))]
                (Some (timedelta_minutes (ACCESS_TOKEN_EXPIRE_MINUTES settings))) now
              = Ok tok).
    { unfold create_access_token. rewrite <- Htok. f_equal. simpl. f_equal. f_equal.
      f_equal. subst expire.
      destruct (timedelta_minutes (ACCESS_TOKEN_EXPIRE_MINUTES settings) =? 0);
        reflexivity. }
    exists tok. split; [|split].
    + rewrite login_user_run, <- Hname.
      rewrite (find_by_name User.username _ _ (wf_username_unique Hwf) Hin).
      rewrite Hverify, Hcreate. reflexivity.
    + intros now' Hfresh.
      pose proof (decode_encode _ _ _ now' Htok) as Hdec.
      assert (Hlt : (timegm expire <? timegm now') = false) by (apply Z.ltb_ge; exact Hfresh).
      rewrite Hlt in Hdec. split.
      * eexists. split; [exact Hdec|]. rewrite <- Hname. reflexivity.
      * rewrite get_current_user_run, Hdec. cbn [dict_get String.eqb Ascii.eqb Bool.eqb].
        simpl.
        rewrite (find_by_name User.username _ _ (wf_username_unique Hwf') Hin').
        reflexivity.
    + intros now' Hexpired.
      pose proof (decode_encode _ _ _ now' Htok) as Hdec.
      assert (Hlt : (timegm expire <? timegm now') = true) by (apply Z.ltb_lt; exact Hexpired).
      rewrite Hlt in Hdec. rewrite get_current_user_run, Hdec. reflexivity.
  - intros tok now' e Hdec. rewrite get_current_user_run, Hdec. reflexivity.
  - intros tok now' payload Hdec Hsub.
    rewrite get_current_user_run, Hdec, Hsub. reflexivity.
Qed.

(** C10. A token without a user: a bearer token that decodes (signed,
    unexpired) but whose subject names no user row is rejected by
    [get_current_user] with HTTP 401 "Could not validate credentials", the
    exception an invalid token gets; no endpoint behind the dependency
    runs and the store is unchanged. *)
Theorem C10_unknown_subject_rejected :
  forall (tok : token) (now : datetime) (db : Database) (payload : claims)
         (name : string),
    Jose.decode jwt tok (SECRET_KEY settings) [ALGORITHM settings] now = inr payload ->
    dict_get payload "sub" = Some (CStr name) ->
    (forall x, In x (users db) -> User.username x <> name) ->
    get_current_user jwt settings tok now db
      = (Raise (HTTPException 401 "Could not validate credentials"
                              [("WWW-Authenticate", "Bearer")]), db)
    /\ (forall tok' now' e,
          Jose.decode jwt tok' (SECRET_KEY settings) [ALGORITHM settings] now' = inl e ->
          get_current_user jwt settings tok' now' db
            = get_current_user jwt settings tok now db)
    /\ api_me jwt settings tok now db = (Raise credentials_exception, db)
    /\ (forall task,
          api_create_task jwt settings tok task now db = (Raise credentials_exception, db))
    /\ api_get_all_tasks jwt settings tok now db = (Raise credentials_exception, db)
    /\ (forall task_id,
          api_get_task_by_id jwt settings tok task_id now db
            = (Raise credentials_exception, db))
    /\ (forall task_id patch,
          api_update_task jwt settings tok task_id patch now db
            = (Raise credentials_exception, db))
    /\ (forall task_id,
          api_delete_task jwt settings tok task_id now db
            = (Raise credentials_exception, db)).
Proof.
  intros tok now db payload name Hdec Hsub Hnone.
  assert (Hrej : get_current_user jwt settings tok now db
                 = (Raise credentials_exception, db)).
  { rewrite get_current_user_run, Hdec, Hsub.
    rewrite (find_no_name User.username _ _ Hnone). reflexivity. }
  split; [exact Hrej|]. split.
  - intros tok' now' e Hbad. rewrite Hrej, get_current_user_run, Hbad. reflexivity.
  - now apply endpoints_need_current_user.
Qed.

End Tokens.

Lemma C6_witness :
  wf_db sample_db
  /\ exists tok,
       login_user clear_jwt bcrypt_context dev_settings
                  (UserLogin.Build "alice" "secret1") 5000 sample_db
         = (Ok (Token.Build tok "bearer"), sample_db)
       /\ get_current_user clear_jwt dev_settings tok 6000 sample_db
          = (Ok alice, sample_db).
Proof.
  split; [exact sample_db_wf|].
  destruct (C6_login_token_round_trip clear_token clear_jwt bcrypt_context dev_settings
              (clear_encode_supported dev_settings)
              (clear_decode_encode (SECRET_KEY dev_settings) (ALGORITHM dev_settings))
              sample_db sample_db (UserLogin.Build "alice" "secret1") 5000 alice
              sample_db_wf (or_introl eq_refl) eq_refl eq_refl
              sample_db_wf (or_introl eq_refl))
    as ((tok & Hlogin & Hvalid & _) & _).
  exists tok. split; [exact Hlogin|].
  apply Hvalid. vm_compute. discriminate.
Defined.

Lemma C10_witness :
  (forall x, In x (users sample_db) -> User.username x <> "ghost")
  /\ get_current_user clear_jwt dev_settings
       ([("sub", CStr "ghost"); ("exp", CInt 99)], "your-secret-key", "HS256")
       5000 sample_db
     = (Raise (HTTPException 401 "Could not validate credentials"
                             [("WWW-Authenticate", "Bearer")]), sample_db).
Proof.
  assert (Hnone : forall x, In x (users sample_db) -> User.username x <> "ghost").
  { simpl. intros x [<-|[<-|[]]]; simpl; discriminate. }
  split; [exact Hnone|].
  exact (proj1 (C10_unknown_subject_rejected clear_token clear_jwt dev_settings
                  ([("sub", CStr "ghost"); ("exp", CInt 99)], "your-secret-key", "HS256")
                  5000 sample_db [("sub", CStr "ghost"); ("exp", CInt 99)] "ghost"
                  eq_refl eq_refl Hnone)).
Defined.

(** ** Verification against a digest the hasher cannot read *)

(** C8.  The claim is right and the code misses a case: [verify_password]
    hands the digest to passlib and catches nothing, and passlib raises
    [UnknownHashError] for a digest no scheme identifies, where the claim
    and the function's docstring ("False caso contrario") promise a
    negative result.  Evaluated at
    verify_password("secret1", "not-a-bcrypt-digest"); a login against
    such a stored value ends with the same exception. *)
Theorem C8_malformed_digest_raises :
  verify_password bcrypt_context "secret1" "not-a-bcrypt-digest"
    = Raise UnknownHashError
  /\ verify_password bcrypt_context "secret1" "not-a-bcrypt-digest" <> Ok false
  /\ login_user clear_jwt bcrypt_context dev_settings
                (UserLogin.Build "erin" "secret1") 5000 login_db
     = (Raise UnknownHashError, login_db).
Proof.
  split; [reflexivity|]. split; [vm_compute; discriminate|].
  vm_compute. reflexivity.
Qed.

(** ** Partial update *)

Lemma option_string_eqb_eq (x y : option string) :
  option_eqb String.eqb x y = true <-> x = y.
Proof.
  destruct x as [a|], y as [b|]; simpl; try (split; congruence).
  rewrite String.eqb_eq. split; congruence.
Qed.

Lemma option_bool_eqb_eq (x y : option bool) :
  option_eqb Bool.eqb x y = true <-> x = y.
Proof.
  destruct x as [a|], y as [b|]; simpl; try (split; congruence).
  rewrite Bool.eqb_true_iff. split; congruence.
Qed.

Lemma no_net_change (committed current : Task.t) :
  net_change committed current = false ->
  Task.title current = Task.title committed
  /\ Task.description current = Task.description committed
  /\ Task.is_completed current = Task.is_completed committed.
Proof.
  unfold net_change, title_changed, description_changed, is_completed_changed.
  rewrite !orb_false_iff, !negb_false_iff.
  rewrite !option_string_eqb_eq, option_bool_eqb_eq. tauto.
Qed.

(** The attributes after the writes of a patch: the value of the patch
    where it has one, the loaded value elsewhere. *)
Lemma patched_attributes (patch : TaskUpdate.t) (t : Task.t) :
  let t' := fold_left setattr (model_dump_exclude_unset patch) t in
  Task.title t'
    = match TaskUpdate.title patch with Some v => v | None => Task.title t end
  /\ Task.description t'
    = match TaskUpdate.description patch with Some v => v | None => Task.description t end
  /\ Task.is_completed t'
    = match TaskUpdate.is_completed patch with Some v => v | None => Task.is_completed t end.
Proof.
  destruct patch as [[ti|] [de|] [co|]]; simpl; auto.
Qed.

Lemma find_owned_unique (db : Database) (u : User.t) (t : Task.t) :
  NoDup (map Task.id (tasks db)) -> In t (tasks db) ->
  Task.user_id t = User.id u ->
  find (owned_task (Task.id t) u) (tasks db) = Some t.
Proof.
  intros Hnd Hin Hown.
  destruct (find (owned_task (Task.id t) u) (tasks db)) as [t2|] eqn:E.
  - apply find_owned_some in E as (Hin2 & Hid & _).
    f_equal. eapply (@key_unique _ Task.id); eauto.
  - exfalso. apply find_owned_none in E. apply E. exists t. auto.
Qed.

(** A patch that changes nothing writes nothing: the task comes back as it
    is stored, timestamp included. *)
Lemma update_task_already_completed (db : Database) (U : User.t) (t : Task.t)
    (now : datetime) :
  wf_db db -> In t (tasks db) -> Task.user_id t = User.id U ->
  Task.is_completed t = Some true ->
  update_task (Task.id t) complete_only U now db = (Ok t, db).
Proof.
  intros Hwf Hin Hown Hdone.
  pose proof (find_owned_unique db U t (wf_task_pk Hwf) Hin Hown) as Hfind.
  rewrite (update_task_found _ complete_only _ now _ _ (wf_task_pk Hwf) Hfind).
  assert (Hsame : net_change t (fold_left setattr (model_dump_exclude_unset complete_only) t)
                  = false).
  { unfold net_change, title_changed, description_changed, is_completed_changed.
    simpl. rewrite Hdone. simpl.
    rewrite !(proj2 (option_string_eqb_eq _ _) eq_refl). reflexivity. }
  rewrite Hsame. reflexivity.
Qed.

(** C4, as the code has it.  An update of a task the caller owns applies
    only the fields present in the patch: each of title, description and
    is_completed ends as the patch says where the patch has it and as it
    was elsewhere, and id, owner and creation time never change.  The
    patch {"is_completed": true} on a task not yet completed flips the
    flag, leaves title and description as they were and sets updated_at
    to the clock reading of the update, which is strictly greater than
    the previous value when the clock has moved past it. *)
Theorem C4_partial_update :
  forall (db : Database) (U : User.t) (task_id : Z) (t : Task.t) (now : datetime),
    wf_db db -> In t (tasks db) ->
    Task.id t = task_id -> Task.user_id t = User.id U ->
    (forall patch r db',
        update_task task_id patch U now db = (Ok r, db') ->
        Task.title r
          = match TaskUpdate.title patch with Some v => v | None => Task.title t end
        /\ Task.description r
          = match TaskUpdate.description patch with
            | Some v => v
            | None => Task.description t
            end
        /\ Task.is_completed r
          = match TaskUpdate.is_completed patch with
            | Some v => v
            | None => Task.is_completed t
            end
        /\ Task.id r = Task.id t
        /\ Task.user_id r = Task.user_id t
        /\ Task.created_at r = Task.created_at t
        /\ (Task.updated_at r = now \/ r = t))
    /\ (Task.is_completed t <> Some true ->
        let r := Task.Build (Task.id t) (Task.title t) (Task.description t) (Some true)
                            (Task.created_at t) now (Task.user_id t) in
        update_task task_id complete_only U now db
          = (Ok r, Build_Database (users db) (update_row r (tasks db)))
        /\ (Task.updated_at t < now -> Task.updated_at t < Task.updated_at r)).
Proof.
  intros db U task_id t now Hwf Hin Hid Hown. subst task_id.
  pose proof (wf_task_pk Hwf) as Hnd.
  pose proof (find_owned_unique db U t Hnd Hin Hown) as Hfind.
  split.
  - intros patch r db'.
    rewrite (update_task_found _ patch _ now _ _ Hnd Hfind).
    pose proof (patched_attributes patch t) as (Hti & Hde & Hco).
    pose proof (fold_setattr_frame (model_dump_exclude_unset patch) t)
      as (Fid & Fown & Fcr & _).
    destruct (net_change t _) eqn:Enet; cbn [negb].
    + destruct (_ && _); [discriminate|]. intros [= <- _].
      unfold set_updated_at; cbn [Task.title Task.description Task.is_completed
        Task.id Task.user_id Task.created_at Task.updated_at].
      repeat split; auto.
    + intros [= <- _]. apply no_net_change in Enet as (Nti & Nde & Nco).
      repeat split; auto; congruence.
  - intros Hopen r.
    rewrite (update_task_found _ complete_only _ now _ _ Hnd Hfind).
    assert (Hnet : net_change t (fold_left setattr (model_dump_exclude_unset complete_only) t)
                   = true).
    { unfold net_change, is_completed_changed. simpl.
      destruct (Task.is_completed t) as [[|]|]; simpl;
        try (rewrite !orb_true_r; reflexivity).
      contradiction Hopen. reflexivity. }
    rewrite Hnet. cbn [negb].
    assert (Hti : title_changed t (fold_left setattr (model_dump_exclude_unset complete_only) t)
                  = false).
    { unfold title_changed. simpl.
      rewrite (proj2 (option_string_eqb_eq _ _) eq_refl). reflexivity. }
    rewrite Hti. cbn [andb]. split; [reflexivity|].
    subst r. simpl. tauto.
Qed.

Lemma C4_witness :
  wf_db sample_db
  /\ update_task 1 complete_only alice 5000 sample_db
     = (Ok (Task.Build 1 (Some "Buy milk") None (Some true) 3000 5000 1),
        Build_Database [alice; bob]
          [Task.Build 1 (Some "Buy milk") None (Some true) 3000 5000 1; walk_dog]).
Proof.
  split; [exact sample_db_wf|].
  destruct (C4_partial_update sample_db alice 1 buy_milk 5000 sample_db_wf
              (or_introl eq_refl) eq_refl eq_refl) as [_ Hflip].
  destruct Hflip as [Hrun _]; [simpl; discriminate|].
  exact Hrun.
Defined.

(** The claim as written fails in two ways.  Where the wall clock has not
    moved on since the row was last written (a coarse clock, or one that
    was set back), the flag flips and the timestamp is not greater than it
    was: [utcnow()] reads 3000 again at the update of a task stamped 3000.
    And on a task that is already completed the patch changes nothing, so
    no UPDATE is issued and the timestamp stays, however late the clock. *)
Lemma C4_counterexample :
  (In buy_milk (tasks sample_db)
   /\ Task.user_id buy_milk = User.id alice
   /\ update_task (Task.id buy_milk) complete_only alice 3000 sample_db
      = (Ok (Task.Build 1 (Some "Buy milk") None (Some true) 3000 3000 1),
         Build_Database [alice; bob]
           [Task.Build 1 (Some "Buy milk") None (Some true) 3000 3000 1; walk_dog])
   /\ ~ (Task.updated_at buy_milk
           < Task.updated_at (Task.Build 1 (Some "Buy milk") None (Some true) 3000 3000 1)))
  /\ (In pay_rent (tasks done_db)
      /\ Task.user_id pay_rent = User.id alice
      /\ update_task (Task.id pay_rent) complete_only alice 9000 done_db
         = (Ok pay_rent, done_db)
      /\ ~ (Task.updated_at pay_rent < Task.updated_at pay_rent)).
Proof.
  split.
  - split; [simpl; left; reflexivity|]. split; [reflexivity|].
    split; [vm_compute; reflexivity|]. simpl. lia.
  - split; [simpl; left; reflexivity|]. split; [reflexivity|].
    split; [vm_compute; reflexivity|]. lia.
Qed.

(** ** The schema constraints hold in every reachable store *)

Lemma empty_database_wf : wf_db empty_database.
Proof. constructor; simpl; constructor. Qed.

Lemma NoDup_map_filter {A K} (key : A -> K) (p : A -> bool) (l : list A) :
  NoDup (map key l) -> NoDup (map key (filter p l)).
Proof.
  induction l as [|a l IH]; simpl; intros Hnd; [constructor|].
  inversion Hnd as [|? ? Ha Hl]; subst.
  destruct (p a); simpl; [|auto]. constructor; [|auto].
  intros Hin. apply Ha. apply in_map_iff in Hin as (x & Hk & Hx).
  apply filter_In in Hx as [Hx _]. apply in_map_iff. eauto.
Qed.

Lemma Forall_filter_keep {A} (P : A -> Prop) (p : A -> bool) (l : list A) :
  Forall P l -> Forall P (filter p l).
Proof.
  rewrite !Forall_forall. intros H x Hx. apply filter_In in Hx as [Hx _]. auto.
Qed.

Lemma not_taken (key : User.t -> string) (name : string) (l : list User.t) :
  existsb (fun u => String.eqb (key u) name) l = false -> ~ In name (map key l).
Proof.
  intros H Hin. apply in_map_iff in Hin as (u & Hk & Hu).
  assert (existsb (fun u => String.eqb (key u) name) l = true); [|congruence].
  apply existsb_exists. exists u. split; [exact Hu|]. now apply String.eqb_eq.
Qed.

Lemma update_row_ids (row : Task.t) (l : list Task.t) :
  map Task.id (update_row row l) = map Task.id l.
Proof.
  induction l as [|r l IH]; simpl; [reflexivity|]. rewrite IH.
  destruct (Task.id r =? Task.id row) eqn:E; [|reflexivity].
  apply Z.eqb_eq in E. now rewrite E.
Qed.

Lemma update_row_Forall (P : Task.t -> Prop) (row : Task.t) (l : list Task.t) :
  P row -> Forall P l -> Forall P (update_row row l).
Proof.
  intros Hrow. induction 1 as [|r l Hr Hl IH]; simpl; constructor; auto.
  destruct (Task.id r =? Task.id row); auto.
Qed.

Lemma register_user_wf (ctx : CryptContext.t) (user : UserCreate.t) (salt : string)
    (now : datetime) (db : Database) :
  wf_db db -> wf_db (snd (register_user ctx user salt now db)).
Proof.
  intros Hwf. rewrite register_user_run.
  destruct (username_taken _ db) eqn:Ename; [exact Hwf|].
  destruct (email_taken _ db) eqn:Email; [exact Hwf|].
  destruct (hash_password ctx _ salt) as [hashed|e]; [|exact Hwf].
  destruct Hwf as [Htask Huser Hname Hmail Htitle].
  constructor; cbn [snd users tasks]; auto; rewrite map_app; apply NoDup_snoc; auto.
  - apply next_id_fresh.
  - now apply not_taken.
  - now apply not_taken.
Qed.

Lemma update_task_wf (task_id : Z) (patch : TaskUpdate.t) (u : User.t)
    (now : datetime) (db : Database) :
  wf_db db -> wf_db (snd (update_task task_id patch u now db)).
Proof.
  intros Hwf.
  destruct (find (owned_task task_id u) (tasks db)) as [t|] eqn:E.
  - rewrite (update_task_found _ patch _ now _ _ (wf_task_pk Hwf) E).
    destruct (negb _); [exact Hwf|].
    destruct (title_changed t _) eqn:Eti.
    + destruct (Task.title (fold_left setattr (model_dump_exclude_unset patch) t))
        as [ti|] eqn:Enew; cbn [andb]; [|exact Hwf].
      destruct Hwf as [Htask Huser Hname Hmail Htitle].
      constructor; cbn [snd users tasks]; auto.
      * now rewrite update_row_ids.
      * apply update_row_Forall; [|exact Htitle].
        unfold set_updated_at; cbn [Task.title]. rewrite Enew. discriminate.
    + cbn [andb].
      assert (Hkeep : Task.title (fold_left setattr (model_dump_exclude_unset patch) t)
                      = Task.title t).
      { unfold title_changed in Eti. apply negb_false_iff in Eti.
        now apply option_string_eqb_eq. }
      apply find_some in E as [Hin _].
      destruct Hwf as [Htask Huser Hname Hmail Htitle].
      constructor; cbn [snd users tasks]; auto.
      * now rewrite update_row_ids.
      * apply update_row_Forall; [|exact Htitle].
        unfold set_updated_at; cbn [Task.title]. rewrite Hkeep.
        rewrite Forall_forall in Htitle. now apply Htitle.
  - rewrite (update_task_missing _ patch _ now _ E). exact Hwf.
Qed.

Lemma delete_task_wf (task_id : Z) (u : User.t) (db : Database) :
  wf_db db -> wf_db (snd (delete_task task_id u db)).
Proof.
  intros Hwf. rewrite delete_task_run.
  destruct (find _ _); [|exact Hwf].
  destruct Hwf as [Htask Huser Hname Hmail Htitle].
  constructor; cbn [snd users tasks]; auto.
  - now apply NoDup_map_filter.
  - now apply Forall_filter_keep.
Qed.

Lemma delete_user_wf (u : User.t) (db : Database) :
  wf_db db -> wf_db (snd (delete_user u db)).
Proof.
  intros [Htask Huser Hname Hmail Htitle]. unfold delete_user.
  constructor; cbn [snd users tasks];
    try (now apply NoDup_map_filter); now apply Forall_filter_keep.
Qed.

Section Reachable.

Variable token : Type.
Variable jwt : Jose.t token.
Variable password_context : CryptContext.t.
Variable settings : Settings.

Lemma get_current_user_pure (tok : token) (now : datetime) (db : Database) :
  snd (get_current_user jwt settings tok now db) = db.
Proof.
  rewrite get_current_user_run.
  destruct (Jose.decode _ _ _ _ _) as [e|payload]; [reflexivity|].
  destruct (dict_get payload "sub") as [[name| | |]|]; try reflexivity.
  destruct (find _ _); reflexivity.
Qed.

Lemma behind_current_user {A} (tok : token) (now : datetime)
    (handler : User.t -> Session A) (db : Database) :
  snd (bind (get_current_user jwt settings tok now) handler db) = db
  \/ exists u, snd (bind (get_current_user jwt settings tok now) handler db)
               = snd (handler u db).
Proof.
  unfold bind. pose proof (get_current_user_pure tok now db) as Hpure.
  destruct (get_current_user jwt settings tok now db) as [[u|e] db0];
    cbn [snd] in Hpure; subst db0.
  - right. exists u. reflexivity.
  - left. reflexivity.
Qed.

Lemma serve_wf (db : Database) (r : request token) :
  wf_db db -> wf_db (serve jwt password_context settings db r).
Proof.
  intros Hwf. destruct r; cbn [serve].
  - unfold api_register, bind.
    pose proof (register_user_wf password_context user salt now db Hwf) as H.
    destruct (register_user password_context user salt now db) as [[u|e] db0];
      exact H.
  - rewrite login_user_run.
    destruct (find _ _) as [u|]; [|exact Hwf].
    destruct (verify_password _ _ _) as [[|]|e]; try exact Hwf.
    destruct (create_access_token _ _ _ _ _); exact Hwf.
  - unfold api_me.
    destruct (behind_current_user tok now
                (fun cu => u <- get_current_user_info cu ;; ret (serialize_user u)) db)
      as [H|[u H]]; rewrite H; exact Hwf.
  - unfold api_create_task.
    destruct (behind_current_user tok now (fun cu => create_task task cu now) db)
      as [H|[u H]]; rewrite H; [exact Hwf|]. now apply create_task_wf.
  - unfold api_get_all_tasks.
    destruct (behind_current_user tok now (fun cu => get_all_tasks cu) db)
      as [H|[u H]]; rewrite H; exact Hwf.
  - unfold api_get_task_by_id.
    destruct (behind_current_user tok now (fun cu => get_task_by_id task_id cu) db)
      as [H|[u H]]; rewrite H; [exact Hwf|].
    rewrite get_task_by_id_run. destruct (find _ _); exact Hwf.
  - unfold api_update_task.
    destruct (behind_current_user tok now
                (fun cu => update_task task_id task_update cu now) db)
      as [H|[u H]]; rewrite H; [exact Hwf|]. now apply update_task_wf.
  - unfold api_delete_task.
    destruct (behind_current_user tok now (fun cu => delete_task task_id cu) db)
      as [H|[u H]]; rewrite H; [exact Hwf|]. now apply delete_task_wf.
Qed.

(** Whatever the history of requests, the store satisfies the schema:
    primary keys, usernames and emails are unique, titles are not null. *)
Theorem run_wf (history : list (request token)) :
  wf_db (run jwt password_context settings history).
Proof.
  unfold run. generalize empty_database_wf. generalize empty_database.
  induction history as [|r rs IH]; intros db Hwf; simpl; [exact Hwf|].
  apply IH. now apply serve_wf.
Qed.

End Reachable.

(** ** A session, end to end *)

(** register, login, create a task, then ask for it with someone else's
    token: the task gets id 1 and the flag false, its creator reads it
    and the other user gets the 404. *)
Example end_to_end_scenario :
  let db0 := empty_database in
  let db1 := snd (api_register bcrypt_context
                    (UserCreate.Build "alice" "a@x.com" "secret1") "s1" 1000 db0) in
  let db2 := snd (api_register bcrypt_context
                    (UserCreate.Build "bob" "b@x.com" "hunter22") "s2" 2000 db1) in
  exists tok_a tok_b,
    fst (login_user clear_jwt bcrypt_context dev_settings
           (UserLogin.Build "alice" "secret1") 3000 db2) = Ok (Token.Build tok_a "bearer")
    /\ fst (login_user clear_jwt bcrypt_context dev_settings
              (UserLogin.Build "bob" "hunter22") 3000 db2) = Ok (Token.Build tok_b "bearer")
    /\ exists r db3,
         api_create_task clear_jwt dev_settings tok_a
           (TaskCreate.Build "Buy milk" None) 4000 db2 = (Ok r, db3)
         /\ Task.id r = 1
         /\ Task.title r = Some "Buy milk"
         /\ Task.is_completed r = Some false
         /\ api_get_task_by_id clear_jwt dev_settings tok_b 1 5000 db3
            = (Raise (HTTPException 404 "Task not found" []), db3)
         /\ fst (api_get_task_by_id clear_jwt dev_settings tok_a 1 5000 db3) = Ok r.
Proof.
  cbv zeta. eexists. eexists. split; [vm_compute; reflexivity|].
  split; [vm_compute; reflexivity|].
  eexists. eexists. split; [vm_compute; reflexivity|].
  repeat split; vm_compute; reflexivity.
Qed.

(* ===================================================================== *)
(** * Further properties of the routes *)
(* ===================================================================== *)

(** ** Creating, then reading *)

Lemma find_owned_fresh (l : list Task.t) (row : Task.t) (u : User.t) :
  ~ In (Task.id row) (map Task.id l) ->
  Task.user_id row = User.id u ->
  find (owned_task (Task.id row) u) (l ++ [row]) = Some row.
Proof.
  intros Hfresh Hown. induction l as [|a l IH]; simpl.
  - unfold owned_task. rewrite Hown, !Z.eqb_refl. reflexivity.
  - destruct (owned_task (Task.id row) u a) eqn:E.
    + apply owned_task_true in E as [E _]. exfalso. apply Hfresh. left. exact E.
    + apply IH. intros H. apply Hfresh. right. exact H.
Qed.

(** When [create_task] returns a task, the task has a key no stored task
    had, the title and description of the request, the creator as owner
    and the flag false; the store gains that row and nothing else, and
    the creator reads the task back by id and finds it in the list. *)
Theorem create_task_round_trip :
  forall (task : TaskCreate.t) (u : User.t) (now : datetime) (db db1 : Database)
         (r : Task.t),
    create_task task u now db = (Ok r, db1) ->
    ~ In (Task.id r) (map Task.id (tasks db))
    /\ Task.title r = Some (TaskCreate.title task)
    /\ Task.description r = TaskCreate.description task
    /\ Task.is_completed r = Some false
    /\ Task.user_id r = User.id u
    /\ users db1 = users db
    /\ (forall x, In x (tasks db1) <-> In x (tasks db) \/ x = r)
    /\ get_task_by_id (Task.id r) u db1 = (Ok r, db1)
    /\ (forall l, fst (get_all_tasks u db1) = Ok l ->
          forall x, In x l <-> In x (tasks_of u db) \/ x = r).
Proof.
  intros task u now db db1 r. rewrite create_task_run. intros [= <- <-].
  split; [apply next_id_fresh|].
  repeat (split; [reflexivity|]). cbn [tasks]. split.
  { intros x. rewrite in_app_iff. simpl. intuition congruence. }
  split.
  - rewrite get_task_by_id_run. cbn [tasks].
    rewrite find_owned_fresh; [reflexivity | apply next_id_fresh | reflexivity].
  - intros l [= <-] x. cbn [tasks]. unfold tasks_of.
    rewrite filter_app, in_app_iff. simpl. rewrite Z.eqb_refl. simpl.
    intuition congruence.
Qed.

Lemma create_task_round_trip_witness :
  exists r db1,
    create_task (TaskCreate.Build "Feed cat" None) bob 5000 sample_db = (Ok r, db1)
    /\ Task.user_id r = User.id bob
    /\ get_task_by_id (Task.id r) bob db1 = (Ok r, db1).
Proof.
  assert (Hrun : create_task (TaskCreate.Build "Feed cat" None) bob 5000 sample_db
                 = (Ok (Task.Build 3 (Some "Feed cat") None (Some false) 5000 5000 2),
                    Build_Database [alice; bob]
                      [buy_milk; walk_dog;
                       Task.Build 3 (Some "Feed cat") None (Some false) 5000 5000 2]))
    by (vm_compute; reflexivity).
  destruct (create_task_round_trip _ _ _ _ _ _ Hrun)
    as (_ & _ & _ & _ & Hown & _ & _ & Hget & _).
  eexists. eexists. split; [exact Hrun|]. split; [exact Hown | exact Hget].
Defined.

(** ** Deleting, then reading *)

Lemma find_owned_deleted (l : list Task.t) (t : Task.t) (u : User.t) :
  find (owned_task (Task.id t) u)
       (filter (fun r => negb (Task.id r =? Task.id t)) l) = None.
Proof.
  apply find_none_iff. intros x Hx. apply filter_In in Hx as [_ Hx].
  apply negb_true_iff in Hx. unfold owned_task. rewrite Hx. reflexivity.
Qed.

(** Deleting an owned task removes that row and no other; afterwards the
    id is unknown to get, update and delete, and the owner's list is the
    old list without the task. *)
Theorem delete_task_then_gone :
  forall (db : Database) (U : User.t) (t : Task.t),
    wf_db db -> In t (tasks db) -> Task.user_id t = User.id U ->
    exists db',
      delete_task (Task.id t) U db = (Ok tt, db')
      /\ users db' = users db
      /\ (forall r, In r (tasks db') <-> In r (tasks db) /\ r <> t)
      /\ get_task_by_id (Task.id t) U db' = (Raise task_not_found, db')
      /\ (forall patch now,
            update_task (Task.id t) patch U now db' = (Raise task_not_found, db'))
      /\ delete_task (Task.id t) U db' = (Raise task_not_found, db')
      /\ (forall l, fst (get_all_tasks U db') = Ok l ->
            ~ In t l /\ forall r, In r l <-> In r (tasks_of U db) /\ r <> t).
Proof.
  intros db U t Hwf Hin Hown.
  pose proof (wf_task_pk Hwf) as Hnd.
  pose proof (find_owned_unique db U t Hnd Hin Hown) as Hfind.
  assert (Hkept : forall r,
            In r (filter (fun r => negb (Task.id r =? Task.id t)) (tasks db))
            <-> In r (tasks db) /\ r <> t).
  { intros r. rewrite filter_In, negb_true_iff, Z.eqb_neq. split.
    - intros [Hr Hid]. split; [exact Hr|]. intros ->. now apply Hid.
    - intros [Hr Hneq]. split; [exact Hr|]. intros Hid. apply Hneq.
      exact (key_unique Task.id (tasks db) r t Hnd Hr Hin Hid). }
  eexists. split; [rewrite delete_task_run, Hfind; reflexivity|].
  split; [reflexivity|]. split; [exact Hkept|].
  split; [rewrite get_task_by_id_run; cbn [tasks]; now rewrite find_owned_deleted|].
  split; [intros patch now; apply update_task_missing; cbn [tasks];
          apply find_owned_deleted|].
  split; [rewrite delete_task_run; cbn [tasks]; now rewrite find_owned_deleted|].
  intros l [= <-]. cbn [tasks]. unfold tasks_of. split.
  - intros H. apply filter_In in H as [H _]. apply Hkept in H as [_ H]. now apply H.
  - intros r. split.
    + intros H. apply filter_In in H as [H Ho]. apply Hkept in H as [H Hneq].
      split; [apply filter_In; auto | exact Hneq].
    + intros [H Hneq]. apply filter_In in H as [H Ho].
      apply filter_In. split; [apply Hkept; auto | exact Ho].
Qed.

Lemma delete_task_then_gone_witness :
  wf_db sample_db
  /\ exists db',
       delete_task 1 alice sample_db = (Ok tt, db')
       /\ get_task_by_id 1 alice db' = (Raise task_not_found, db').
Proof.
  split; [exact sample_db_wf|].
  destruct (delete_task_then_gone sample_db alice buy_milk sample_db_wf
              (or_introl eq_refl) eq_refl) as (db' & Hdel & _ & _ & Hget & _).
  exists db'. split; assumption.
Defined.

(** ** Updating: what is written, and when *)

Lemma net_change_false_iff (committed current : Task.t) :
  net_change committed current = false
  <-> Task.title current = Task.title committed
      /\ Task.description current = Task.description committed
      /\ Task.is_completed current = Task.is_completed committed.
Proof.
  split; [apply no_net_change|]. intros (H1 & H2 & H3).
  unfold net_change, title_changed, description_changed, is_completed_changed.
  rewrite H1, H2, H3.
  rewrite !(proj2 (option_string_eqb_eq _ _) eq_refl).
  rewrite (proj2 (option_bool_eqb_eq _ _) eq_refl). reflexivity.
Qed.

Lemma agreeing_patch_no_change (patch : TaskUpdate.t) (t : Task.t) :
  patch_agrees patch t <->
  net_change t (fold_left setattr (model_dump_exclude_unset patch) t) = false.
Proof.
  rewrite net_change_false_iff.
  pose proof (patched_attributes patch t) as (Hti & Hde & Hco).
  rewrite Hti, Hde, Hco. unfold patch_agrees.
  destruct (TaskUpdate.title patch) as [ti|],
           (TaskUpdate.description patch) as [de|],
           (TaskUpdate.is_completed patch) as [co|];
    (split;
     [ intros (A & B & C); repeat split;
       try reflexivity; auto
     | intros (A & B & C); repeat split; intros v Hv;
       try discriminate; injection Hv as <-; assumption ]).
Qed.

Lemma In_update_row (row t : Task.t) (l : list Task.t) :
  In t l -> Task.id t = Task.id row -> In row (update_row row l).
Proof.
  intros Hin Hid. unfold update_row. apply in_map_iff. exists t.
  split; [|exact Hin]. rewrite Hid, Z.eqb_refl. reflexivity.
Qed.

(** A patch that agrees with the stored row (the empty patch, or one that
    repeats the stored values) is answered with the row as it is and
    writes nothing: [updated_at] is not refreshed; any other patch that
    is accepted stamps the row with the clock reading. *)
Theorem update_task_writes_on_change_only :
  forall (db : Database) (U : User.t) (t : Task.t) (patch : TaskUpdate.t)
         (now : datetime),
    wf_db db -> In t (tasks db) -> Task.user_id t = User.id U ->
    (patch_agrees patch t ->
       update_task (Task.id t) patch U now db = (Ok t, db))
    /\ (forall r db',
          ~ patch_agrees patch t ->
          update_task (Task.id t) patch U now db = (Ok r, db') ->
          Task.updated_at r = now
          /\ tasks db' = update_row r (tasks db)
          /\ users db' = users db)
    /\ update_task (Task.id t) empty_patch U now db = (Ok t, db).
Proof.
  intros db U t patch now Hwf Hin Hown.
  pose proof (wf_task_pk Hwf) as Hnd.
  pose proof (find_owned_unique db U t Hnd Hin Hown) as Hfind.
  assert (Hagree : forall p, patch_agrees p t ->
            update_task (Task.id t) p U now db = (Ok t, db)).
  { intros p Hp. rewrite (update_task_found _ p _ now _ _ Hnd Hfind).
    apply agreeing_patch_no_change in Hp. rewrite Hp. reflexivity. }
  split; [apply Hagree|]. split.
  - intros r db' Hdiff. rewrite (update_task_found _ patch _ now _ _ Hnd Hfind).
    destruct (net_change t _) eqn:Enet; cbn [negb].
    + destruct (_ && _); [discriminate|]. intros [= <- <-]. auto.
    + exfalso. apply Hdiff. now apply agreeing_patch_no_change.
  - apply Hagree. unfold patch_agrees, empty_patch; simpl.
    repeat split; intros v Hv; discriminate.
Qed.

Lemma update_task_writes_on_change_only_witness :
  wf_db done_db
  /\ update_task 1 complete_only alice 9000 done_db = (Ok pay_rent, done_db)
  /\ update_task 1 empty_patch alice 9000 done_db = (Ok pay_rent, done_db).
Proof.
  assert (Hwf : wf_db done_db).
  { constructor; simpl; repeat constructor; simpl; try tauto; discriminate. }
  split; [exact Hwf|].
  destruct (update_task_writes_on_change_only done_db alice pay_rent complete_only 9000
              Hwf (or_introl eq_refl) eq_refl) as (Hsame & _ & Hempty).
  split; [|exact Hempty].
  apply Hsame. unfold patch_agrees, complete_only; simpl.
  repeat split; intros v Hv; try discriminate. now injection Hv as <-.
Defined.

(** A patch with an explicit null title on an owned task is refused by the
    NOT NULL column when the session commits: the request ends with
    [IntegrityError] and nothing of the patch is written, whatever else
    it carries. *)
Theorem update_task_null_title_refused :
  forall (db : Database) (U : User.t) (t : Task.t) (patch : TaskUpdate.t)
         (now : datetime),
    wf_db db -> In t (tasks db) -> Task.user_id t = User.id U ->
    TaskUpdate.title patch = Some None ->
    update_task (Task.id t) patch U now db = (Raise IntegrityError, db).
Proof.
  intros db U t patch now Hwf Hin Hown Hnull.
  pose proof (wf_task_pk Hwf) as Hnd.
  pose proof (find_owned_unique db U t Hnd Hin Hown) as Hfind.
  rewrite (update_task_found _ patch _ now _ _ Hnd Hfind).
  pose proof (patched_attributes patch t) as (Hti & _ & _).
  rewrite Hnull in Hti.
  assert (Hstored : Task.title t <> None).
  { pose proof (wf_title_not_null Hwf) as Hall. rewrite Forall_forall in Hall.
    now apply Hall. }
  assert (Hchanged : title_changed t (fold_left setattr (model_dump_exclude_unset patch) t)
                     = true).
  { unfold title_changed. rewrite Hti.
    destruct (Task.title t); [reflexivity | contradiction]. }
  unfold net_change. rewrite Hchanged, Hti. reflexivity.
Qed.

Lemma update_task_null_title_refused_witness :
  wf_db sample_db
  /\ update_task 1 (TaskUpdate.Build (Some None) None (Some (Some true))) alice 5000
                 sample_db
     = (Raise IntegrityError, sample_db).
Proof.
  split; [exact sample_db_wf|].
  exact (update_task_null_title_refused sample_db alice buy_milk
           (TaskUpdate.Build (Some None) None (Some (Some true))) 5000
           sample_db_wf (or_introl eq_refl) eq_refl eq_refl).
Defined.

(** What an update answers is what the store then holds: the owner reads
    the returned task back by id, and sending the same patch again, at
    any later time, answers the same task and writes nothing. *)
Theorem update_task_then_get_and_repeat :
  forall (db db' : Database) (U : User.t) (task_id : Z) (patch : TaskUpdate.t)
         (now : datetime) (r : Task.t),
    wf_db db ->
    update_task task_id patch U now db = (Ok r, db') ->
    get_task_by_id task_id U db' = (Ok r, db')
    /\ (forall now', update_task task_id patch U now' db' = (Ok r, db')).
Proof.
  intros db db' U task_id patch now r Hwf Hrun.
  pose proof (wf_task_pk Hwf) as Hnd.
  destruct (find (owned_task task_id U) (tasks db)) as [t|] eqn:Hfind;
    [|rewrite (update_task_missing _ patch _ now _ Hfind) in Hrun; discriminate].
  pose proof (find_owned_some _ _ _ _ Hfind) as (Hin & Hid & Hown).
  rewrite (update_task_found _ patch _ now _ _ Hnd Hfind) in Hrun.
  pose proof (patched_attributes patch t) as (Hti & Hde & Hco).
  pose proof (fold_setattr_frame (model_dump_exclude_unset patch) t)
    as (Fid & Fown & _ & _).
  set (t' := fold_left setattr (model_dump_exclude_unset patch) t) in *.
  assert (Hstored : In r (tasks db') /\ NoDup (map Task.id (tasks db'))
                    /\ Task.id r = task_id /\ Task.user_id r = User.id U
                    /\ patch_agrees patch r).
  { destruct (net_change t t') eqn:Enet; cbn [negb] in Hrun.
    - destruct (_ && _); [discriminate|]. injection Hrun as <- <-. cbn [tasks].
      split; [apply (In_update_row _ t); [exact Hin | simpl; now rewrite Fid]|].
      split; [now rewrite update_row_ids|].
      unfold set_updated_at; cbn [Task.id Task.user_id].
      split; [congruence|]. split; [congruence|].
      unfold patch_agrees; cbn [Task.title Task.description Task.is_completed].
      rewrite Hti, Hde, Hco.
      repeat split; intros v Hv; rewrite Hv; reflexivity.
    - injection Hrun as <- <-.
      split; [exact Hin|]. split; [exact Hnd|]. split; [exact Hid|].
      split; [exact Hown|]. apply agreeing_patch_no_change. exact Enet. }
  destruct Hstored as (Hin' & Hnd' & Hid' & Hown' & Hagree). rewrite <- Hid'.
  pose proof (find_owned_unique db' U r Hnd' Hin' Hown') as Hfind'.
  split.
  - rewrite get_task_by_id_run, Hfind'. reflexivity.
  - intros now'. rewrite (update_task_found _ patch _ now' _ _ Hnd' Hfind').
    apply agreeing_patch_no_change in Hagree. rewrite Hagree. reflexivity.
Qed.

Lemma update_task_then_get_and_repeat_witness :
  wf_db sample_db
  /\ exists r db',
       update_task 1 complete_only alice 5000 sample_db = (Ok r, db')
       /\ get_task_by_id 1 alice db' = (Ok r, db')
       /\ update_task 1 complete_only alice 8000 db' = (Ok r, db').
Proof.
  split; [exact sample_db_wf|].
  assert (Hrun : update_task 1 complete_only alice 5000 sample_db
                 = (Ok (Task.Build 1 (Some "Buy milk") None (Some true) 3000 5000 1),
                    Build_Database [alice; bob]
                      [Task.Build 1 (Some "Buy milk") None (Some true) 3000 5000 1;
                       walk_dog]))
    by (vm_compute; reflexivity).
  destruct (update_task_then_get_and_repeat sample_db _ alice 1 complete_only 5000 _
              sample_db_wf Hrun) as [Hget Hrepeat].
  eexists. eexists. split; [exact Hrun|]. split; [exact Hget | exact (Hrepeat 8000)].
Defined.

(** ** Registering twice *)

Lemma taken_after_append (key : User.t -> string) (l : list User.t) (row : User.t) :
  existsb (fun u => String.eqb (key u) (key row)) (l ++ [row]) = true.
Proof.
  rewrite existsb_app. simpl. rewrite String.eqb_refl, orb_true_r. reflexivity.
Qed.

(** After a registration has succeeded, a second one with the same
    username is refused with 400 "Username already registered" (whatever
    its email), one with a new username and the same email with 400
    "Email already registered", and neither writes anything. *)
Theorem register_user_twice :
  forall (ctx : CryptContext.t) (req : UserCreate.t) (salt : string) (now : datetime)
         (db db1 : Database) (u : User.t),
    register_user ctx req salt now db = (Ok u, db1) ->
    (forall req2 salt2 now2,
        UserCreate.username req2 = UserCreate.username req ->
        register_user ctx req2 salt2 now2 db1
        = (Raise (HTTPException 400 "Username already registered" []), db1))
    /\ (forall req2 salt2 now2,
          UserCreate.email req2 = UserCreate.email req ->
          (forall x, In x (users db1) -> User.username x <> UserCreate.username req2) ->
          register_user ctx req2 salt2 now2 db1
          = (Raise (HTTPException 400 "Email already registered" []), db1)).
Proof.
  intros ctx req salt now db db1 u. rewrite register_user_run.
  destruct (username_taken _ db); [discriminate|].
  destruct (email_taken _ db); [discriminate|].
  destruct (hash_password ctx _ salt) as [hashed|e]; [|discriminate].
  intros [= <- <-]. split.
  - intros req2 salt2 now2 Hname. rewrite register_user_run.
    unfold username_taken at 1. cbn [users]. rewrite Hname.
    pose proof (taken_after_append User.username (users db)
                  (registered_row req hashed now db)) as H.
    cbn [registered_row User.username] in H. rewrite H. reflexivity.
  - intros req2 salt2 now2 Hmail Hfree. rewrite register_user_run.
    destruct (username_taken (UserCreate.username req2) _) eqn:E.
    + apply (taken_iff _ _ User.username) in E as (x & Hin & Hx).
      exfalso. exact (Hfree x Hin Hx).
    + unfold email_taken. cbn [users]. rewrite Hmail.
      pose proof (taken_after_append User.email (users db)
                    (registered_row req hashed now db)) as H.
      cbn [registered_row User.email] in H. rewrite H. reflexivity.
Qed.

Lemma register_user_twice_witness :
  exists u db1,
    register_user bcrypt_context (UserCreate.Build "carol" "c@x.com" "secret3")
                  "salt" 7000 sample_db = (Ok u, db1)
    /\ register_user bcrypt_context (UserCreate.Build "carol" "other@x.com" "secret4")
                     "pepper" 8000 db1
       = (Raise (HTTPException 400 "Username already registered" []), db1).
Proof.
  assert (Hrun :
            register_user bcrypt_context (UserCreate.Build "carol" "c@x.com" "secret3")
                          "salt" 7000 sample_db
            = (Ok (User.Build 3 "carol" "c@x.com" "$2b$secret3" 7000),
               Build_Database
                 [alice; bob; User.Build 3 "carol" "c@x.com" "$2b$secret3" 7000]
                 [buy_milk; walk_dog]))
    by (vm_compute; reflexivity).
  eexists. eexists. split; [exact Hrun|].
  apply (proj1 (register_user_twice bcrypt_context _ _ _ _ _ _ Hrun)). reflexivity.
Defined.

(** ** The claims a token carries *)

Lemma dict_get_update_same (d : claims) (k : string) (v : claim) :
  dict_get (dict_update d k v) k = Some v.
Proof.
  induction d as [|[k' v'] d IH]; simpl.
  - rewrite String.eqb_refl. reflexivity.
  - destruct (String.eqb k' k) eqn:E; simpl.
    + rewrite String.eqb_refl. reflexivity.
    + rewrite E. exact IH.
Qed.

Lemma dict_get_update_other (d : claims) (k k' : string) (v : claim) :
  k' <> k -> dict_get (dict_update d k v) k' = dict_get d k'.
Proof.
  intros Hneq. induction d as [|[k0 v0] d IH]; simpl.
  - apply String.eqb_neq in Hneq. rewrite String.eqb_sym, Hneq. reflexivity.
  - destruct (String.eqb k0 k) eqn:E; simpl.
    + apply String.eqb_eq in E. subst k0.
      assert (String.eqb k k' = false) as ->; [|reflexivity].
      apply String.eqb_neq. congruence.
    + destruct (String.eqb k0 k'); [reflexivity | exact IH].
Qed.

Lemma dict_update_length (d : claims) (k : string) (v : claim) :
  List.length (dict_update d k v)
  = match dict_get d k with Some _ => List.length d | None => S (List.length d) end.
Proof.
  induction d as [|[k' v'] d IH]; simpl; [reflexivity|].
  destruct (String.eqb k' k); simpl; [reflexivity|].
  rewrite IH. destruct (dict_get d k); reflexivity.
Qed.

(** [create_access_token] signs the caller's claims with one [exp] entry
    put in: every other key keeps its value, an [exp] the caller supplied
    is replaced rather than doubled, and the expiry is the clock reading
    plus the delta when a non-zero delta is given, and plus the configured
    ACCESS_TOKEN_EXPIRE_MINUTES when the delta is missing or zero. *)
Theorem create_access_token_claims :
  forall (token : Type) (jwt : Jose.t token) (settings : Settings) (data : claims)
         (expires_delta : option Z) (now : datetime),
    exists to_encode,
      create_access_token jwt settings data expires_delta now
      = Jose.encode jwt to_encode (SECRET_KEY settings) (ALGORITHM settings)
      /\ (forall k, k <> "exp" -> dict_get to_encode k = dict_get data k)
      /\ List.length to_encode
         = match dict_get data "exp" with
           | Some _ => List.length data
           | None => S (List.length data)
           end
      /\ (forall d, expires_delta = Some d -> d <> 0 ->
            dict_get to_encode "exp" = Some (CDatetime (now + d)))
      /\ (expires_delta = None \/ expires_delta = Some 0 ->
            dict_get to_encode "exp" = Some (CDatetime (default_expiry settings now))).
Proof.
  intros token jwt settings data expires_delta now. unfold create_access_token.
  eexists. split; [reflexivity|].
  split; [intros k Hk; now apply dict_get_update_other|].
  split; [apply dict_update_length|].
  rewrite dict_get_update_same. split.
  - intros d -> Hd. apply Z.eqb_neq in Hd. rewrite Hd. reflexivity.
  - intros [->| ->]; reflexivity.
Qed.

(** ** Who a token resolves to *)

(** [get_current_user] never writes; when it returns a user, that user is
    a stored row and the token decoded to a payload whose subject is the
    row's username; when it raises, it raises the 401 "Could not validate
    credentials", or pydantic's [ValidationError] for a subject that is
    neither a string nor null. *)
Theorem get_current_user_sound :
  forall (token : Type) (jwt : Jose.t token) (settings : Settings) (tok : token)
         (now : datetime) (db : Database),
    snd (get_current_user jwt settings tok now db) = db
    /\ match fst (get_current_user jwt settings tok now db) with
       | Ok u =>
           In u (users db)
           /\ exists payload,
                Jose.decode jwt tok (SECRET_KEY settings) [ALGORITHM settings] now
                  = inr payload
                /\ dict_get payload "sub" = Some (CStr (User.username u))
       | Raise e =>
           e = HTTPException 401 "Could not validate credentials"
                             [("WWW-Authenticate", "Bearer")]
           \/ (e = ValidationError
               /\ exists payload v,
                    Jose.decode jwt tok (SECRET_KEY settings) [ALGORITHM settings] now
                      = inr payload
                    /\ dict_get payload "sub" = Some v
                    /\ v <> CNull /\ forall s, v <> CStr s)
       end.
Proof.
  intros token jwt settings tok now db. rewrite get_current_user_run.
  destruct (Jose.decode _ _ _ _ _) as [e|payload] eqn:Edec; [simpl; auto|].
  destruct (dict_get payload "sub") as [[name|z|d|]|] eqn:Esub; simpl; auto.
  - destruct (find _ (users db)) as [u|] eqn:Efind; simpl; auto.
    apply find_some in Efind as [Hin Hname]. apply String.eqb_eq in Hname.
    split; [reflexivity|]. split; [exact Hin|].
    exists payload. rewrite Hname. auto.
  - split; [reflexivity|]. right. split; [reflexivity|].
    exists payload, (CInt z). repeat split; auto; discriminate.
  - split; [reflexivity|]. right. split; [reflexivity|].
    exists payload, (CDatetime d). repeat split; auto; discriminate.
Qed.

(** ** From registration to /api/auth/me *)

Lemma get_current_user_users_only {token : Type} (jwt : Jose.t token)
    (settings : Settings) (tok : token) (now : datetime) (db db1 : Database) :
  users db1 = users db ->
  get_current_user jwt settings tok now db1
  = (fst (get_current_user jwt settings tok now db), db1).
Proof.
  intros Husers. rewrite !get_current_user_run, Husers.
  destruct (Jose.decode _ _ _ _ _) as [e|payload]; [reflexivity|].
  destruct (dict_get payload "sub") as [[name| | |]|]; try reflexivity.
  destruct (find _ _); reflexivity.
Qed.

Section Onboarding.

Variable token : Type.
Variable jwt : Jose.t token.
Variable password_context : CryptContext.t.
Variable settings : Settings.

Hypothesis verify_hash :
  forall secret salt h,
    CryptContext.hash password_context secret salt = Ok h ->
    CryptContext.verify password_context secret h = Ok true.

Hypothesis encode_supported :
  forall (name : string) (e : datetime),
    exists tok,
      Jose.encode jwt [("sub", CStr name); ("exp", CDatetime e)]
                  (SECRET_KEY settings) (ALGORITHM settings) = Ok tok.

Hypothesis decode_encode :
  forall (name : string) (e : datetime) (tok : token) (now : datetime),
    Jose.encode jwt [("sub", CStr name); ("exp", CDatetime e)]
                (SECRET_KEY settings) (ALGORITHM settings) = Ok tok ->
    Jose.decode jwt tok (SECRET_KEY settings) [ALGORITHM settings] now
    = if timegm e <? timegm now then inl ExpiredSignatureError
      else inr [("sub", CStr name); ("exp", CInt (timegm e))].

(** A user who has just registered can log in with the same username and
    password, and the token of that login, while unexpired, makes
    /api/auth/me answer the new user's id, username, email and
    registration time. *)
Theorem register_login_me :
  forall (db : Database) (req : UserCreate.t) (salt h : string)
         (now now1 : datetime),
    wf_db db ->
    (forall x, In x (users db) ->
       User.username x <> UserCreate.username req
       /\ User.email x <> UserCreate.email req) ->
    hash_password password_context (UserCreate.password req) salt = Ok h ->
    exists u db1 tok,
      register_user password_context req salt now db = (Ok u, db1)
      /\ login_user jwt password_context settings
           (UserLogin.Build (UserCreate.username req) (UserCreate.password req))
           now1 db1
         = (Ok (Token.Build tok "bearer"), db1)
      /\ (forall now2,
            timegm now2 <= timegm (default_expiry settings now1) ->
            api_me jwt settings tok now2 db1
            = (Ok [ ("username", JStr (UserCreate.username req));
                    ("email", JStr (UserCreate.email req));
                    ("id", JInt (User.id u));
                    ("created_at", JDatetime now) ], db1)).
Proof.
  intros db req salt h now now1 Hwf Hunused Hhash.
  pose proof (register_user_wf password_context req salt now db Hwf) as Hwf1.
  rewrite register_user_run in Hwf1 |- *.
  assert (Hname : username_taken (UserCreate.username req) db = false).
  { destruct (username_taken _ db) eqn:E; [|reflexivity].
    apply (taken_iff db _ User.username) in E as (x & Hin & Hx).
    destruct (Hunused x Hin). contradiction. }
  assert (Hmail : email_taken (UserCreate.email req) db = false).
  { destruct (email_taken _ db) eqn:E; [|reflexivity].
    apply (taken_iff db _ User.email) in E as (x & Hin & Hx).
    destruct (Hunused x Hin). contradiction. }
  rewrite Hname, Hmail, Hhash in Hwf1 |- *. cbn [snd] in Hwf1.
  set (u := registered_row req h now db) in *.
  set (db1 := Build_Database (users db ++ [u]) (tasks db)) in *.
  assert (Hin : In u (users db1)) by (cbn [db1 users]; apply in_or_app; right; now left).
  pose proof (find_by_name User.username (users db1) u (wf_username_unique Hwf1) Hin)
    as Hfind.
  destruct (encode_supported (User.username u) (default_expiry settings now1))
    as [tok Htok].
  assert (Hcreate :
            create_access_token jwt settings [("sub", CStr (User.username u))]
              (Some (timedelta_minutes (ACCESS_TOKEN_EXPIRE_MINUTES settings))) now1
            = Ok tok).
  { unfold create_access_token. rewrite <- Htok. unfold default_expiry. simpl.
    destruct (timedelta_minutes (ACCESS_TOKEN_EXPIRE_MINUTES settings) =? 0);
      reflexivity. }
  exists u, db1, tok. split; [reflexivity|]. split.
  - rewrite login_user_run. cbn [UserLogin.username UserLogin.password].
    match goal with
    | |- context [find ?p ?l] =>
        replace (find p l) with (Some u) by (symmetry; exact Hfind)
    end.
    unfold verify_password. cbn [u registered_row User.hashed_password].
    rewrite (verify_hash _ _ _ Hhash), Hcreate. reflexivity.
  - intros now2 Hfresh. unfold api_me, get_current_user_info, bind, ret.
    rewrite get_current_user_run, (decode_encode _ _ _ now2 Htok).
    assert (Hlt : (timegm (default_expiry settings now1) <? timegm now2) = false)
      by (apply Z.ltb_ge; exact Hfresh).
    rewrite Hlt. simpl dict_get. lazy beta iota.
    match goal with
    | |- context [find ?p ?l] =>
        replace (find p l) with (Some u) by (symmetry; exact Hfind)
    end.
    reflexivity.
Qed.

End Onboarding.

Lemma register_login_me_witness :
  wf_db sample_db
  /\ exists u db1 tok,
       register_user bcrypt_context (UserCreate.Build "carol" "c@x.com" "secret3")
                     "salt" 7000 sample_db = (Ok u, db1)
       /\ login_user clear_jwt bcrypt_context dev_settings
            (UserLogin.Build "carol" "secret3") 8000 db1
          = (Ok (Token.Build tok "bearer"), db1)
       /\ api_me clear_jwt dev_settings tok 9000 db1
          = (Ok [ ("username", JStr "carol"); ("email", JStr "c@x.com");
                  ("id", JInt (User.id u)); ("created_at", JDatetime 7000) ], db1).
Proof.
  split; [exact sample_db_wf|].
  assert (Hunused : forall x, In x (users sample_db) ->
            User.username x <> "carol" /\ User.email x <> "c@x.com").
  { simpl. intros x [<-|[<-|[]]]; simpl; split; discriminate. }
  destruct (register_login_me clear_token clear_jwt bcrypt_context dev_settings
              bcrypt_verify_hash (clear_encode_supported dev_settings)
              (clear_decode_encode (SECRET_KEY dev_settings) (ALGORITHM dev_settings))
              sample_db (UserCreate.Build "carol" "c@x.com" "secret3") "salt"
              "$2b$secret3" 7000 8000 sample_db_wf Hunused eq_refl)
    as (u & db1 & tok & Hreg & Hlogin & Hme).
  exists u, db1, tok. split; [exact Hreg|]. split; [exact Hlogin|].
  apply Hme. vm_compute. discriminate.
Defined.

(** ** Two tokens, one task *)

Section TwoUsers.

Variable token : Type.
Variable jwt : Jose.t token.
Variable settings : Settings.

(** With two tokens that resolve to different users, a task created with
    the first is answered to the first and is a 404 for the second, on
    get, update and delete, and is absent from the second's list. *)
Theorem task_of_one_token_hidden_from_other :
  forall (db : Database) (tok_a tok_b : token) (A B : User.t)
         (task : TaskCreate.t) (now now' : datetime),
    wf_db db ->
    get_current_user jwt settings tok_a now db = (Ok A, db) ->
    get_current_user jwt settings tok_a now' db = (Ok A, db) ->
    get_current_user jwt settings tok_b now' db = (Ok B, db) ->
    User.id A <> User.id B ->
    exists r db1,
      api_create_task jwt settings tok_a task now db = (Ok r, db1)
      /\ Task.user_id r = User.id A
      /\ api_get_task_by_id jwt settings tok_a (Task.id r) now' db1 = (Ok r, db1)
      /\ api_get_task_by_id jwt settings tok_b (Task.id r) now' db1
         = (Raise task_not_found, db1)
      /\ (forall patch,
            api_update_task jwt settings tok_b (Task.id r) patch now' db1
            = (Raise task_not_found, db1))
      /\ api_delete_task jwt settings tok_b (Task.id r) now' db1
         = (Raise task_not_found, db1)
      /\ exists l,
           api_get_all_tasks jwt settings tok_b now' db1 = (Ok l, db1) /\ ~ In r l.
Proof.
  intros db tok_a tok_b A B task now now' Hwf HA HA' HB Hneq.
  pose proof (create_task_wf task A now db Hwf) as Hwf1.
  pose proof (create_task_run task A now db) as Hrun. cbv zeta in Hrun.
  rewrite Hrun in Hwf1. cbn [snd] in Hwf1.
  set (r := Task.Build (next_id (map Task.id (tasks db))) (Some (TaskCreate.title task))
                       (TaskCreate.description task) (Some false) now now (User.id A))
    in *.
  set (db1 := Build_Database (users db) (tasks db ++ [r])) in *.
  assert (HA1 : get_current_user jwt settings tok_a now' db1 = (Ok A, db1)).
  { rewrite (get_current_user_users_only jwt settings tok_a now' db db1 eq_refl), HA'.
    reflexivity. }
  assert (HB1 : get_current_user jwt settings tok_b now' db1 = (Ok B, db1)).
  { rewrite (get_current_user_users_only jwt settings tok_b now' db db1 eq_refl), HB.
    reflexivity. }
  assert (Hin : In r (tasks db1)) by (cbn [db1 tasks]; apply in_or_app; right; now left).
  assert (Hforeign : Task.user_id r <> User.id B) by exact Hneq.
  destruct (foreign_task_hidden db1 B r Hwf1 Hin Hforeign) as (Hget & Hupd & Hdel & Hlist).
  exists r, db1.
  unfold api_create_task, api_get_task_by_id, api_update_task, api_delete_task,
    api_get_all_tasks, bind.
  rewrite HA, HA1, HB1, Hrun, Hget, Hdel.
  split; [reflexivity|]. split; [reflexivity|]. split.
  - rewrite get_task_by_id_run.
    rewrite (find_owned_unique db1 A r (wf_task_pk Hwf1) Hin eq_refl). reflexivity.
  - split; [reflexivity|]. split; [intros patch; now rewrite Hupd|].
    split; [reflexivity|].
    exists (tasks_of B db1). split; [reflexivity|]. now apply Hlist.
Qed.

End TwoUsers.

Lemma task_of_one_token_hidden_from_other_witness :
  wf_db sample_db
  /\ exists r db1,
       api_create_task clear_jwt dev_settings
         ([("sub", CStr "alice"); ("exp", CInt 99)], "your-secret-key", "HS256")
         (TaskCreate.Build "Call mum" None) 5000 sample_db = (Ok r, db1)
       /\ api_get_task_by_id clear_jwt dev_settings
            ([("sub", CStr "bob"); ("exp", CInt 99)], "your-secret-key", "HS256")
            (Task.id r) 6000 db1
          = (Raise task_not_found, db1).
Proof.
  split; [exact sample_db_wf|].
  destruct (task_of_one_token_hidden_from_other clear_token clear_jwt dev_settings
              sample_db
              ([("sub", CStr "alice"); ("exp", CInt 99)], "your-secret-key", "HS256")
              ([("sub", CStr "bob"); ("exp", CInt 99)], "your-secret-key", "HS256")
              alice bob (TaskCreate.Build "Call mum" None) 5000 6000
              sample_db_wf eq_refl eq_refl eq_refl)
    as (r & db1 & Hcreate & _ & _ & Hget & _).
  - simpl. discriminate.
  - exists r, db1. split; assumption.
Defined.

(** ** What a request can and cannot write *)

Lemma find_id_present (t : Task.t) (l : list Task.t) :
  In t l -> exists t0, find (fun r => Task.id r =? Task.id t) l = Some t0.
Proof.
  intros Hin. destruct (find (fun r => Task.id r =? Task.id t) l) as [t0|] eqn:E; [eauto|].
  rewrite find_none_iff in E. specialize (E t Hin). rewrite Z.eqb_refl in E. discriminate.
Qed.

(** The ways an update can end, with no assumption on the store. *)
Lemma update_task_ends (task_id : Z) (patch : TaskUpdate.t) (u : User.t)
    (now : datetime) (db : Database) :
  (exists e, update_task task_id patch u now db = (Raise e, db))
  \/ (exists r, update_task task_id patch u now db = (Ok r, db))
  \/ (exists t r,
        In t (tasks db) /\ Task.id t = task_id /\ Task.user_id t = User.id u
        /\ Task.id r = Task.id t /\ Task.user_id r = Task.user_id t
        /\ Task.created_at r = Task.created_at t
        /\ update_task task_id patch u now db
           = (Ok r, Build_Database (users db) (update_row r (tasks db)))).
Proof.
  destruct (find (owned_task task_id u) (tasks db)) as [t|] eqn:Hfind;
    [|left; eexists; now apply update_task_missing].
  pose proof (find_owned_some _ _ _ _ Hfind) as (Hin & Hid & Hown).
  unfold update_task. session. rewrite Hfind. unfold flush_update, refresh_task.
  pose proof (fold_setattr_frame (model_dump_exclude_unset patch) t)
    as (Fid & Fown & Fcr & _).
  set (t' := fold_left setattr (model_dump_exclude_unset patch) t) in *.
  destruct (negb (net_change t t')).
  - destruct (find_id_present t (tasks db) Hin) as [t0 H0]. rewrite H0.
    right. left. eauto.
  - destruct (title_changed t t' && _); [left; eauto|]. cbn [tasks].
    right. right. exists t, (set_updated_at t' now).
    assert (Hrow : Task.id (set_updated_at t' now) = Task.id t) by exact Fid.
    rewrite <- Hrow, update_row_find; [|exists t; split; [exact Hin | now rewrite Hrow]].
    repeat split; auto; congruence.
Qed.

Section Writes.

Variable token : Type.
Variable jwt : Jose.t token.
Variable password_context : CryptContext.t.
Variable settings : Settings.

Lemma behind_current_user_run {A} (tok : token) (now : datetime)
    (handler : User.t -> Session A) (db : Database) :
  (exists e, get_current_user jwt settings tok now db = (Raise e, db)
             /\ bind (get_current_user jwt settings tok now) handler db = (Raise e, db))
  \/ (exists u, get_current_user jwt settings tok now db = (Ok u, db)
                /\ bind (get_current_user jwt settings tok now) handler db
                   = handler u db).
Proof.
  unfold bind. pose proof (get_current_user_pure token jwt settings tok now db) as Hpure.
  destruct (get_current_user jwt settings tok now db) as [[u|e] db0];
    cbn [snd] in Hpure; subst db0; [right|left]; eauto.
Qed.

Lemma login_user_pure (user : UserLogin.t) (now : datetime) (db : Database) :
  snd (login_user jwt password_context settings user now db) = db.
Proof.
  rewrite login_user_run.
  destruct (find _ _) as [u|]; [|reflexivity].
  destruct (verify_password _ _ _) as [[|]|e']; try reflexivity.
  destruct (create_access_token _ _ _ _ _); reflexivity.
Qed.

Lemma api_me_pure (tok : token) (now : datetime) (db : Database) :
  snd (api_me jwt settings tok now db) = db.
Proof.
  unfold api_me.
  destruct (behind_current_user_run tok now
              (fun cu => u <- get_current_user_info cu ;; ret (serialize_user u)) db)
    as [(e' & _ & H)|(u & _ & H)]; rewrite H; reflexivity.
Qed.

Lemma api_get_all_tasks_pure (tok : token) (now : datetime) (db : Database) :
  snd (api_get_all_tasks jwt settings tok now db) = db.
Proof.
  unfold api_get_all_tasks.
  destruct (behind_current_user_run tok now (fun cu => get_all_tasks cu) db)
    as [(e' & _ & H)|(u & _ & H)]; rewrite H; reflexivity.
Qed.

Lemma api_get_task_by_id_pure (tok : token) (task_id : Z) (now : datetime)
    (db : Database) :
  snd (api_get_task_by_id jwt settings tok task_id now db) = db.
Proof.
  unfold api_get_task_by_id.
  destruct (behind_current_user_run tok now (fun cu => get_task_by_id task_id cu) db)
    as [(e' & _ & H)|(u & _ & H)]; rewrite H; [reflexivity|].
  rewrite get_task_by_id_run. destruct (find _ _); reflexivity.
Qed.

(** Writes happen on success only.  Logging in, /api/auth/me and the two
    GET routes of the tasks never write, whatever they answer; and a
    registration, a creation, an update or a deletion that ends in an
    exception (a 400, 401 or 404, or anything that becomes a 500) leaves
    the store as the request found it. *)
Theorem writes_only_on_success :
  forall (db : Database),
    (forall user now, snd (login_user jwt password_context settings user now db) = db)
    /\ (forall tok now, snd (api_me jwt settings tok now db) = db)
    /\ (forall tok now, snd (api_get_all_tasks jwt settings tok now db) = db)
    /\ (forall tok task_id now,
          snd (api_get_task_by_id jwt settings tok task_id now db) = db)
    /\ (forall user salt now e,
          fst (api_register password_context user salt now db) = Raise e ->
          snd (api_register password_context user salt now db) = db)
    /\ (forall tok task now e,
          fst (api_create_task jwt settings tok task now db) = Raise e ->
          snd (api_create_task jwt settings tok task now db) = db)
    /\ (forall tok task_id patch now e,
          fst (api_update_task jwt settings tok task_id patch now db) = Raise e ->
          snd (api_update_task jwt settings tok task_id patch now db) = db)
    /\ (forall tok task_id now e,
          fst (api_delete_task jwt settings tok task_id now db) = Raise e ->
          snd (api_delete_task jwt settings tok task_id now db) = db).
Proof.
  intros db.
  split; [intros; apply login_user_pure|].
  split; [intros; apply api_me_pure|].
  split; [intros; apply api_get_all_tasks_pure|].
  split; [intros; apply api_get_task_by_id_pure|].
  split.
  { intros user salt now e. unfold api_register, bind. rewrite register_user_run.
    destruct (username_taken _ db); [reflexivity|].
    destruct (email_taken _ db); [reflexivity|].
    destruct (hash_password _ _ _); [discriminate | reflexivity]. }
  split.
  { intros tok task now e. unfold api_create_task.
    destruct (behind_current_user_run tok now (fun cu => create_task task cu now) db)
      as [(e' & _ & H)|(u & _ & H)]; rewrite H; [reflexivity|].
    rewrite create_task_run. discriminate. }
  split.
  { intros tok task_id patch now e. unfold api_update_task.
    destruct (behind_current_user_run tok now
                (fun cu => update_task task_id patch cu now) db)
      as [(e' & _ & H)|(u & _ & H)]; rewrite H; [reflexivity|].
    destruct (update_task_ends task_id patch u now db)
      as [[e' H']|[[r H']|(t & r & _ & _ & _ & _ & _ & _ & H')]];
      rewrite H'; [reflexivity | reflexivity | discriminate]. }
  intros tok task_id now e. unfold api_delete_task.
  destruct (behind_current_user_run tok now (fun cu => delete_task task_id cu) db)
    as [(e' & _ & H)|(u & _ & H)]; rewrite H; [reflexivity|].
  rewrite delete_task_run. destruct (find _ _); [discriminate | reflexivity].
Qed.

Lemma serve_users (db : Database) (r : request token) :
  exists l, users (serve jwt password_context settings db r) = users db ++ l.
Proof.
  assert (Hsame : forall db', users db' = users db -> exists l, users db' = users db ++ l).
  { intros db' H. exists []. rewrite app_nil_r. exact H. }
  destruct r; cbn [serve].
  - unfold api_register, bind. rewrite register_user_run.
    destruct (username_taken _ db); [now apply Hsame|].
    destruct (email_taken _ db); [now apply Hsame|].
    destruct (hash_password _ _ _); [|now apply Hsame].
    cbn [snd users ret]. eexists. reflexivity.
  - apply Hsame. f_equal. apply login_user_pure.
  - apply Hsame. f_equal. apply api_me_pure.
  - apply Hsame. unfold api_create_task.
    destruct (behind_current_user_run tok now (fun cu => create_task task cu now) db)
      as [(e' & _ & H)|(u & _ & H)]; rewrite H; [reflexivity|].
    rewrite create_task_run. reflexivity.
  - apply Hsame. f_equal. apply api_get_all_tasks_pure.
  - apply Hsame. f_equal. apply api_get_task_by_id_pure.
  - apply Hsame. unfold api_update_task.
    destruct (behind_current_user_run tok now
                (fun cu => update_task task_id task_update cu now) db)
      as [(e' & _ & H)|(u & _ & H)]; rewrite H; [reflexivity|].
    destruct (update_task_ends task_id task_update u now db)
      as [[e' H']|[[r H']|(t & r & _ & _ & _ & _ & _ & _ & H')]];
      rewrite H'; reflexivity.
  - apply Hsame. unfold api_delete_task.
    destruct (behind_current_user_run tok now (fun cu => delete_task task_id cu) db)
      as [(e' & _ & H)|(u & _ & H)]; rewrite H; [reflexivity|].
    rewrite delete_task_run. destruct (find _ _); reflexivity.
Qed.

(** The users table only grows at its end: no request removes or rewrites
    a user row, so a row stored at some point of a history, password hash
    included, is there unchanged at every later point. *)
Theorem users_append_only :
  forall (history later : list (request token)),
    (exists l,
        users (run jwt password_context settings (history ++ later))
        = users (run jwt password_context settings history) ++ l)
    /\ (forall u,
          In u (users (run jwt password_context settings history)) ->
          In u (users (run jwt password_context settings (history ++ later)))).
Proof.
  intros history later. unfold run. rewrite fold_left_app.
  generalize (fold_left (serve jwt password_context settings) history empty_database).
  assert (Hgrow : forall db, exists l,
            users (fold_left (serve jwt password_context settings) later db)
            = users db ++ l).
  { induction later as [|r rs IH]; intros db; simpl.
    - exists []. now rewrite app_nil_r.
    - destruct (IH (serve jwt password_context settings db r)) as [l2 H2].
      destruct (serve_users db r) as [l1 H1].
      exists (l1 ++ l2). rewrite H2, H1, app_assoc. reflexivity. }
  intros db. split; [apply Hgrow|].
  intros u Hin. destruct (Hgrow db) as [l ->]. apply in_or_app. now left.
Qed.

End Writes.

(** ** A stored task keeps its identity *)

Lemma stable_same (l : list Task.t) (t t' : Task.t) :
  NoDup (map Task.id l) -> In t l -> In t' l -> Task.id t' = Task.id t -> t' = t.
Proof. intros Hnd Hin Hin' Hid. exact (key_unique Task.id l t' t Hnd Hin' Hin Hid). Qed.

Lemma In_update_row_inv (row t' : Task.t) (l : list Task.t) :
  In t' (update_row row l) -> t' = row \/ In t' l.
Proof.
  unfold update_row. intros H. apply in_map_iff in H as (x & Hx & Hin).
  destruct (Task.id x =? Task.id row); [left | right]; congruence.
Qed.

Section Identity.

Variable token : Type.
Variable jwt : Jose.t token.
Variable password_context : CryptContext.t.
Variable settings : Settings.

(** No request changes the owner or the creation time of a stored task:
    a task that is in the store before a request, and whose id is in the
    store after it, has the owner and the creation time it had. *)
Theorem task_identity_is_stable :
  forall (db : Database) (r : request token) (t t' : Task.t),
    wf_db db ->
    In t (tasks db) ->
    In t' (tasks (serve jwt password_context settings db r)) ->
    Task.id t' = Task.id t ->
    Task.user_id t' = Task.user_id t /\ Task.created_at t' = Task.created_at t.
Proof.
  intros db r t t' Hwf Hin Hin' Hid.
  pose proof (wf_task_pk Hwf) as Hnd.
  assert (Hsame : In t' (tasks db) ->
            Task.user_id t' = Task.user_id t /\ Task.created_at t' = Task.created_at t).
  { intros H. rewrite (stable_same (tasks db) t t' Hnd Hin H Hid). auto. }
  destruct r; cbn [serve] in Hin'.
  - apply Hsame. revert Hin'. unfold api_register, bind. rewrite register_user_run.
    destruct (username_taken _ db); [auto|].
    destruct (email_taken _ db); [auto|].
    destruct (hash_password _ _ _); auto.
  - apply Hsame. now rewrite login_user_pure in Hin'.
  - apply Hsame. now rewrite api_me_pure in Hin'.
  - revert Hin'. unfold api_create_task.
    destruct (behind_current_user_run token jwt settings tok now
                (fun cu => create_task task cu now) db)
      as [(e' & _ & H)|(u & _ & H)]; rewrite H; [exact Hsame|].
    rewrite create_task_run. cbn [snd tasks]. intros Hin'.
    apply in_app_or in Hin' as [Hold|[<-|[]]]; [now apply Hsame|].
    exfalso. apply (next_id_fresh (map Task.id (tasks db))).
    cbn [Task.id] in Hid. rewrite Hid. now apply in_map.
  - apply Hsame. now rewrite api_get_all_tasks_pure in Hin'.
  - apply Hsame. now rewrite api_get_task_by_id_pure in Hin'.
  - revert Hin'. unfold api_update_task.
    destruct (behind_current_user_run token jwt settings tok now
                (fun cu => update_task task_id task_update cu now) db)
      as [(e' & _ & H)|(u & _ & H)]; rewrite H; [exact Hsame|].
    destruct (update_task_ends task_id task_update u now db)
      as [[e' H']|[[r H']|(t0 & r & Hin0 & _ & _ & Rid & Rown & Rcr & H')]];
      rewrite H'; [exact Hsame | exact Hsame |].
    cbn [snd tasks]. intros Hin'.
    apply In_update_row_inv in Hin' as [->|Hold]; [|now apply Hsame].
    assert (t0 = t) by (apply (stable_same (tasks db) t t0 Hnd Hin Hin0); congruence).
    subst t0. auto.
  - revert Hin'. unfold api_delete_task.
    destruct (behind_current_user_run token jwt settings tok now
                (fun cu => delete_task task_id cu) db)
      as [(e' & _ & H)|(u & _ & H)]; rewrite H; [exact Hsame|].
    rewrite delete_task_run. destruct (find _ _); [|exact Hsame].
    cbn [snd tasks]. intros Hin'. apply filter_In in Hin' as [Hold _]. now apply Hsame.
Qed.

End Identity.

Lemma task_identity_is_stable_witness :
  wf_db sample_db
  /\ Task.user_id (Task.Build 1 (Some "Buy milk") None (Some true) 3000 5000 1)
     = Task.user_id buy_milk
  /\ Task.created_at (Task.Build 1 (Some "Buy milk") None (Some true) 3000 5000 1)
     = Task.created_at buy_milk.
Proof.
  split; [exact sample_db_wf|].
  apply (task_identity_is_stable clear_token clear_jwt bcrypt_context dev_settings
           sample_db
           (PUT_task ([("sub", CStr "alice"); ("exp", CInt 99)], "your-secret-key", "HS256")
                     1 complete_only 5000)
           buy_milk (Task.Build 1 (Some "Buy milk") None (Some true) 3000 5000 1)
           sample_db_wf (or_introl eq_refl)).
  - vm_compute. left. reflexivity.
  - reflexivity.
Defined.

(** ** What the task routes answer *)


Lemma TaskResponse_list_refused (l : list Task.t) (x : Task.t) :
  In x l -> TaskResponse_from_attributes x = None -> TaskResponse_list l = None.
Proof.
  induction l as [|a l IH]; simpl; [contradiction|].
  intros [->|Hin] Hx.
  - rewrite Hx. reflexivity.
  - rewrite (IH Hin Hx). destruct (TaskResponse_from_attributes a); reflexivity.
Qed.


Section Wire.

Variable token : Type.
Variable jwt : Jose.t token.
Variable settings : Settings.

(** A null completion flag gets in and cannot be shown.  For a caller
    whose token resolves to the owner, PUT /api/tasks/{id} with
    {"is_completed": null} commits the null (and a fresh [updated_at]) and
    then answers 500, because the response model wants a boolean; from
    then on GET of that task and GET of the owner's list answer 500 too. *)
Theorem null_flag_is_stored_then_unshowable :
  forall (db : Database) (tok : token) (U : User.t) (t : Task.t) (now now' : datetime),
    wf_db db -> In t (tasks db) -> Task.user_id t = User.id U ->
    Task.is_completed t <> None ->
    get_current_user jwt settings tok now db = (Ok U, db) ->
    get_current_user jwt settings tok now' db = (Ok U, db) ->
    exists r db',
      PUT_api_tasks_id jwt settings tok (Task.id t) null_flag now db
        = (InternalServerError, db')
      /\ r = Task.Build (Task.id t) (Task.title t) (Task.description t) None
                        (Task.created_at t) now (Task.user_id t)
      /\ users db' = users db
      /\ tasks db' = update_row r (tasks db)
      /\ In r (tasks db')
      /\ GET_api_tasks_id jwt settings tok (Task.id t) now' db' = (InternalServerError, db')
      /\ GET_api_tasks jwt settings tok now' db' = (InternalServerError, db').
Proof.
  intros db tok U t now now' Hwf Hin Hown Hflag Hauth Hauth'.
  pose proof (wf_task_pk Hwf) as Hnd.
  pose proof (find_owned_unique db U t Hnd Hin Hown) as Hfind.
  set (r := Task.Build (Task.id t) (Task.title t) (Task.description t) None
                       (Task.created_at t) now (Task.user_id t)).
  set (db' := Build_Database (users db) (update_row r (tasks db))).
  assert (Hrun : update_task (Task.id t) null_flag U now db = (Ok r, db')).
  { rewrite (update_task_found _ null_flag _ now _ _ Hnd Hfind).
    assert (Hnet : net_change t (fold_left setattr (model_dump_exclude_unset null_flag) t)
                   = true).
    { unfold net_change, is_completed_changed. simpl.
      destruct (Task.is_completed t); [simpl; now rewrite !orb_true_r | contradiction]. }
    assert (Hti : title_changed t (fold_left setattr (model_dump_exclude_unset null_flag) t)
                  = false).
    { unfold title_changed. simpl.
      now rewrite (proj2 (option_string_eqb_eq _ _) eq_refl). }
    rewrite Hnet, Hti. reflexivity. }
  assert (Hwf' : wf_db db').
  { pose proof (update_task_wf (Task.id t) null_flag U now db Hwf) as H.
    now rewrite Hrun in H. }
  assert (Hin' : In r (tasks db')) by (apply (In_update_row r t); auto).
  assert (Hrefused : TaskResponse_from_attributes r = None).
  { unfold TaskResponse_from_attributes, r; simpl. destruct (Task.title t); reflexivity. }
  assert (Hown' : Task.user_id r = User.id U) by exact Hown.
  assert (HU : get_current_user jwt settings tok now' db' = (Ok U, db')).
  { rewrite (get_current_user_users_only jwt settings tok now' db db' eq_refl), Hauth'.
    reflexivity. }
  exists r, db'.
  unfold PUT_api_tasks_id, GET_api_tasks_id, GET_api_tasks,
    api_update_task, api_get_task_by_id, api_get_all_tasks, bind.
  rewrite Hauth, HU, Hrun. cbn [respond]. rewrite Hrefused.
  split; [reflexivity|]. split; [reflexivity|]. split; [reflexivity|].
  split; [reflexivity|]. split; [exact Hin'|]. split.
  - rewrite get_task_by_id_run.
    change (Task.id t) with (Task.id r).
    rewrite (find_owned_unique db' U r (wf_task_pk Hwf') Hin' Hown').
    cbn [respond]. rewrite Hrefused. reflexivity.
  - unfold get_all_tasks, query_task_all. cbn [respond].
    rewrite (TaskResponse_list_refused _ r); [reflexivity | | exact Hrefused].
    apply filter_In. split; [exact Hin'|]. now apply Z.eqb_eq.
Qed.


End Wire.

Lemma null_flag_is_stored_then_unshowable_witness :
  wf_db sample_db
  /\ exists db',
       PUT_api_tasks_id clear_jwt dev_settings
         ([("sub", CStr "alice"); ("exp", CInt 99)], "your-secret-key", "HS256")
         1 null_flag 5000 sample_db
       = (InternalServerError, db')
       /\ tasks db' = [Task.Build 1 (Some "Buy milk") None None 3000 5000 1; walk_dog]
       /\ GET_api_tasks clear_jwt dev_settings
            ([("sub", CStr "alice"); ("exp", CInt 99)], "your-secret-key", "HS256")
            6000 db'
          = (InternalServerError, db').
Proof.
  split; [exact sample_db_wf|].
  destruct (null_flag_is_stored_then_unshowable clear_token clear_jwt dev_settings
              sample_db
              ([("sub", CStr "alice"); ("exp", CInt 99)], "your-secret-key", "HS256")
              alice buy_milk 5000 6000 sample_db_wf (or_introl eq_refl) eq_refl)
    as (r & db' & Hput & -> & _ & Htasks & _ & _ & Hlist).
  - simpl. discriminate.
  - reflexivity.
  - reflexivity.
  - exists db'. split; [exact Hput|]. split; [exact Htasks | exact Hlist].
Defined.



(** ** No token without a verified password *)

(** When a login answers a token, a stored user has the username of the
    request, the password of the request verified against that user's
    stored hash, the token is what the signer made of the claims
    [sub] = that username and [exp] = the clock reading plus the
    configured minutes, its type is "bearer", and nothing was written. *)
Theorem login_user_sound :
  forall (token : Type) (jwt : Jose.t token) (ctx : CryptContext.t) (settings : Settings)
         (user : UserLogin.t) (now : datetime) (db db' : Database)
         (answer : Token.t token),
    login_user jwt ctx settings user now db = (Ok answer, db') ->
    db' = db
    /\ Token.token_type answer = "bearer"
    /\ exists u,
         In u (users db)
         /\ User.username u = UserLogin.username user
         /\ verify_password ctx (UserLogin.password user) (User.hashed_password u)
            = Ok true
         /\ Jose.encode jwt
              [("sub", CStr (User.username u));
               ("exp", CDatetime (default_expiry settings now))]
              (SECRET_KEY settings) (ALGORITHM settings)
            = Ok (Token.access_token answer).
Proof.
  intros token jwt ctx settings user now db db' answer. rewrite login_user_run.
  destruct (find _ _) as [u|] eqn:Efind; [|discriminate].
  destruct (verify_password _ _ _) as [[|]|e] eqn:Everify; try discriminate.
  destruct (create_access_token _ _ _ _ _) as [tok|e] eqn:Ecreate; [|discriminate].
  intros [= <- <-]. split; [reflexivity|]. split; [reflexivity|].
  apply find_some in Efind as [Hin Hname]. apply String.eqb_eq in Hname.
  exists u. split; [exact Hin|]. split; [exact Hname|]. split; [exact Everify|].
  cbn [Token.access_token].
  rewrite <- Ecreate. unfold create_access_token, default_expiry. simpl.
  destruct (timedelta_minutes (ACCESS_TOKEN_EXPIRE_MINUTES settings) =? 0); reflexivity.
Qed.

Lemma login_user_sound_witness :
  exists answer,
    login_user clear_jwt bcrypt_context dev_settings
               (UserLogin.Build "bob" "hunter22") 5000 sample_db
    = (Ok answer, sample_db)
    /\ Token.token_type answer = "bearer".
Proof.
  assert (Hrun :
            login_user clear_jwt bcrypt_context dev_settings
                       (UserLogin.Build "bob" "hunter22") 5000 sample_db
            = (Ok (Token.Build
                     ([("sub", CStr "bob"); ("exp", CInt 1800)], "your-secret-key", "HS256")
                     "bearer"), sample_db))
    by (vm_compute; reflexivity).
  eexists. split; [exact Hrun|].
  exact (proj1 (proj2 (login_user_sound clear_token clear_jwt bcrypt_context dev_settings
                         _ _ _ _ _ Hrun))).
Defined.

(** ** Every task has an owner *)

Section Owners.

Variable token : Type.
Variable jwt : Jose.t token.
Variable password_context : CryptContext.t.
Variable settings : Settings.

Lemma owners_kept (us us' : list User.t) (ts : list Task.t) :
  (forall u, In u us -> In u us') ->
  Forall (fun t => exists u, In u us /\ User.id u = Task.user_id t) ts ->
  Forall (fun t => exists u, In u us' /\ User.id u = Task.user_id t) ts.
Proof.
  intros Hsub H. rewrite Forall_forall in *. intros t Ht.
  destruct (H t Ht) as (u & Hu & Hid). eauto.
Qed.

Lemma serve_owned (db : Database) (r : request token) :
  Forall (fun t => exists u, In u (users db) /\ User.id u = Task.user_id t) (tasks db) ->
  Forall (fun t => exists u, In u (users (serve jwt password_context settings db r))
                             /\ User.id u = Task.user_id t)
         (tasks (serve jwt password_context settings db r)).
Proof.
  intros Hown. destruct r; cbn [serve].
  - unfold api_register, bind. rewrite register_user_run.
    destruct (username_taken _ db); [exact Hown|].
    destruct (email_taken _ db); [exact Hown|].
    destruct (hash_password _ _ _); [|exact Hown].
    cbn [snd ret users tasks]. apply (owners_kept (users db)); [|exact Hown].
    intros u Hu. apply in_or_app. now left.
  - now rewrite login_user_pure.
  - now rewrite api_me_pure.
  - unfold api_create_task.
    destruct (behind_current_user_run token jwt settings tok now
                (fun cu => create_task task cu now) db)
      as [(e' & _ & H)|(u & Hu & H)]; rewrite H; [exact Hown|].
    rewrite create_task_run. cbn [snd users tasks].
    apply Forall_app. split; [exact Hown|]. constructor; [|constructor].
    exists u. split; [|reflexivity].
    pose proof (get_current_user_run token jwt settings tok now db) as Hrun.
    rewrite Hu in Hrun.
    destruct (Jose.decode _ _ _ _ _) as [e|payload]; [discriminate|].
    destruct (dict_get payload "sub") as [[name| | |]|]; try discriminate.
    destruct (find _ (users db)) as [u0|] eqn:E; [|discriminate].
    injection Hrun as ->. apply find_some in E. tauto.
  - now rewrite api_get_all_tasks_pure.
  - now rewrite api_get_task_by_id_pure.
  - unfold api_update_task.
    destruct (behind_current_user_run token jwt settings tok now
                (fun cu => update_task task_id task_update cu now) db)
      as [(e' & _ & H)|(u & _ & H)]; rewrite H; [exact Hown|].
    destruct (update_task_ends task_id task_update u now db)
      as [[e' H']|[[r H']|(t0 & r & Hin0 & _ & _ & _ & Rown & _ & H')]];
      rewrite H'; [exact Hown | exact Hown |].
    cbn [snd users tasks]. apply update_row_Forall; [|exact Hown].
    rewrite Forall_forall in Hown. rewrite Rown. now apply Hown.
  - unfold api_delete_task.
    destruct (behind_current_user_run token jwt settings tok now
                (fun cu => delete_task task_id cu) db)
      as [(e' & _ & H)|(u & _ & H)]; rewrite H; [exact Hown|].
    rewrite delete_task_run. destruct (find _ _); [|exact Hown].
    cbn [snd users tasks]. now apply Forall_filter_keep.
Qed.

(** Whatever the history of requests, every stored task belongs to a
    stored user: its [user_id] is the id of a row of [users], although
    nothing but the routes enforces the foreign key. *)
Theorem every_task_has_an_owner :
  forall (history : list (request token)) (t : Task.t),
    In t (tasks (run jwt password_context settings history)) ->
    exists u, In u (users (run jwt password_context settings history))
              /\ User.id u = Task.user_id t.
Proof.
  intros history.
  assert (Hall : Forall (fun t => exists u,
                           In u (users (run jwt password_context settings history))
                           /\ User.id u = Task.user_id t)
                        (tasks (run jwt password_context settings history))).
  { unfold run.
    assert (H0 : Forall (fun t => exists u, In u (users empty_database)
                                            /\ User.id u = Task.user_id t)
                        (tasks empty_database)) by constructor.
    revert H0. generalize empty_database.
    induction history as [|r rs IH]; intros db Hdb; simpl; [exact Hdb|].
    apply IH. now apply serve_owned. }
  rewrite Forall_forall in Hall. exact Hall.
Qed.

End Owners.

Lemma every_task_has_an_owner_witness :
  exists t u,
    In t (tasks (run clear_jwt bcrypt_context dev_settings
                   [ POST_register (UserCreate.Build "alice" "a@x.com" "secret1") "s" 1000;
                     POST_tasks ([("sub", CStr "alice"); ("exp", CInt 99)],
                                 "your-secret-key", "HS256")
                                (TaskCreate.Build "Buy milk" None) 2000 ]))
    /\ In u (users (run clear_jwt bcrypt_context dev_settings
                   [ POST_register (UserCreate.Build "alice" "a@x.com" "secret1") "s" 1000;
                     POST_tasks ([("sub", CStr "alice"); ("exp", CInt 99)],
                                 "your-secret-key", "HS256")
                                (TaskCreate.Build "Buy milk" None) 2000 ]))
    /\ User.id u = Task.user_id t.
Proof.
  exists (Task.Build 1 (Some "Buy milk") None (Some false) 2000 2000 1).
  assert (Hin : In (Task.Build 1 (Some "Buy milk") None (Some false) 2000 2000 1)
                   (tasks (run clear_jwt bcrypt_context dev_settings
                     [ POST_register (UserCreate.Build "alice" "a@x.com" "secret1") "s" 1000;
                       POST_tasks ([("sub", CStr "alice"); ("exp", CInt 99)],
                                   "your-secret-key", "HS256")
                                  (TaskCreate.Build "Buy milk" None) 2000 ])))
    by (vm_compute; left; reflexivity).
  destruct (every_task_has_an_owner clear_token clear_jwt bcrypt_context dev_settings
              _ _ Hin) as (u & Hu & Hid).
  exists u. split; [exact Hin|]. split; [exact Hu | exact Hid].
Defined.
